(** * WanderLust trip planner service: a shallow embedding and its properties

    The development follows [src/services/tripPlannerService.js].  The class
    [TripPlannerService] fabricates flight, hotel and activity quotes from
    static tables and [Math.random()], and produces rule-based advice.

    Conventions of the embedding:
    - a JavaScript number is a [number]: either [NaN] or an exact rational
      ([Num q]); the literals of the source ([0.25], [1.3], ...) are read as
      the decimal fractions they denote, arithmetic is exact, and the
      infinities are left out.  The source computes in doubles, so a
      product it rounds, or a draw it compares with a literal, can differ
      from the exact one in the sixteenth significant digit: the price
      formula is stated with [nearest], which allows for either;
    - a string is the sequence of the bytes of its UTF-8 encoding; [trim]
      removes the white space and line terminators of ECMAScript (the ASCII
      ones, U+00A0, U+1680, U+2000-U+200A, U+2028, U+2029, U+202F, U+205F,
      U+3000, U+FEFF), and [toLowerCase] maps [A-Z] and the Kelvin sign
      U+212A, the only characters whose lower case is in ASCII; it leaves
      the other characters as they are, which no table of the source, all
      keyed in ASCII, can tell from their lower case;
    - [Math.random()] reads the next element of an explicit stream of draws,
      threaded through the code by the [Rand] monad, in source order;
    - an object literal used as a table is a [gmap] from property names to
      values (no table of the source repeats a key), and a read [table[key]]
      goes through [get], which falls back to the properties every object
      literal inherits from [Object.prototype];
    - a rejected promise (an exception) is [Throw], a fulfilled one [Ok];
      the artificial [setTimeout] delays are not modelled. *)

From Stdlib Require Import QArith Qabs Qround ZArith Lia Lqa List.
From Stdlib Require Import Ascii String DecimalString.
From stdpp Require Import gmap strings fin_maps.

Local Open Scope string_scope.
Local Open Scope Z_scope.

(** ** JavaScript primitives used by the service *)

Module JS.

(** Numbers: [NaN] or a rational. *)
Inductive number : Type :=
| NaN
| Num (q : Q).

Definition Int (z : Z) : number := Num (inject_Z z).

Definition add (a b : number) : number :=
  match a, b with
  | Num x, Num y => Num (x + y)%Q
  | _, _ => NaN
  end.

Definition sub (a b : number) : number :=
  match a, b with
  | Num x, Num y => Num (x - y)%Q
  | _, _ => NaN
  end.

Definition mul (a b : number) : number :=
  match a, b with
  | Num x, Num y => Num (x * y)%Q
  | _, _ => NaN
  end.

(** [a < b] and [a > b]: any comparison with [NaN] is false. *)
Definition lt (a b : number) : bool :=
  match a, b with
  | Num x, Num y => negb (Qle_bool y x)
  | _, _ => false
  end.

Definition gt (a b : number) : bool := lt b a.

(** [Math.round] rounds to the nearest integer, halves upwards. *)
Definition roundQ (q : Q) : Z := Qfloor (q + (1 # 2))%Q.

Definition Math_round (a : number) : number :=
  match a with
  | Num x => Int (roundQ x)
  | NaN => NaN
  end.

Definition Math_floor (a : number) : number :=
  match a with
  | Num x => Int (Qfloor x)
  | NaN => NaN
  end.

(** [ToString] on the results of [Math.floor] and [Math.round], the only
    numbers the service formats: an integral value prints in decimal. *)
Definition toString (a : number) : string :=
  match a with
  | Num x => NilZero.string_of_int (Z.to_int (Qfloor x))
  | NaN => "NaN"
  end.

(** [Math.min] of two numbers: [NaN] as soon as one argument is. *)
Definition Math_min (a b : number) : number :=
  match a, b with
  | Num x, Num y => if Qle_bool x y then Num x else Num y
  | _, _ => NaN
  end.

(** [l.includes(x)] on an array of integer literals (SameValueZero). *)
Definition includes (l : list Z) (x : number) : bool :=
  match x with
  | Num q => existsb (fun p => Qeq_bool q (inject_Z p)) l
  | NaN => false
  end.

(** [l[i]] on an array: [None] is [undefined], the value at any index that
    is not an integer within bounds. *)
Definition index {A : Type} (l : list A) (i : number) : option A :=
  match i with
  | Num q =>
      if Qeq_bool q (inject_Z (Qfloor q)) && (0 <=? Qfloor q)
      then l !! Z.to_nat (Qfloor q)
      else None
  | NaN => None
  end.

(** [ToIntegerOrInfinity]: [NaN] becomes 0, fractions are truncated. *)
Definition toInteger (a : number) : Z :=
  match a with
  | Num q => if Qle_bool 0 q then Qfloor q else Qceiling q
  | NaN => 0
  end.

(** [l.slice(0, e)]: a negative end counts from the back of the array. *)
Definition slice0 {A : Type} (l : list A) (e : number) : list A :=
  let k := toInteger e in
  if k <? 0
  then firstn (Z.to_nat (Z.max (Z.of_nat (length l) + k) 0)) l
  else firstn (Z.to_nat k) l.

(** *** Strings, as the bytes of their UTF-8 encoding *)

(** The value of a byte. *)
Definition code (c : ascii) : nat := nat_of_ascii c.

Definition lower (c : ascii) : ascii :=
  let n := nat_of_ascii c in
  if ((65 <=? n) && (n <=? 90))%nat then ascii_of_nat (n + 32) else c.

(** KELVIN SIGN, U+212A, bytes E2 84 AA: the one character outside ASCII
    whose lower case is an ASCII letter. *)
Definition isKelvin (c c1 c2 : ascii) : bool :=
  ((code c =? 226) && (code c1 =? 132) && (code c2 =? 170))%nat.

(** [s.toLowerCase()], exact on the letters whose lower case is in ASCII:
    [A-Z] and the KELVIN SIGN.  The other characters outside ASCII are left
    as they are; their lower case is not in ASCII either, and the service
    compares lower-cased names with ASCII names only. *)
Fixpoint toLowerCase (s : string) : string :=
  match s with
  | EmptyString => EmptyString
  | String c r =>
      match r with
      | String c1 (String c2 r2) =>
          if isKelvin c c1 c2 then String "k" (toLowerCase r2)
          else String (lower c) (toLowerCase r)
      | _ => String (lower c) (toLowerCase r)
      end
  end.

(** The white space and line terminators of ECMAScript that [trim] removes:
    one byte (TAB, LF, VT, FF, CR, SP), two or three. *)
Definition isSpace (c : ascii) : bool :=
  let n := nat_of_ascii c in
  ((9 <=? n) && (n <=? 13) || (n =? 32))%nat.

(** U+00A0, bytes C2 A0. *)
Definition isSpace2 (c c1 : ascii) : bool :=
  ((code c =? 194) && (code c1 =? 160))%nat.

(** U+1680 (E1 9A 80), U+2000 to U+200A (E2 80 80 to E2 80 8A), U+2028,
    U+2029, U+202F (E2 80 A8, A9, AF), U+205F (E2 81 9F), U+3000 (E3 80 80)
    and U+FEFF (EF BB BF). *)
Definition isSpace3 (c c1 c2 : ascii) : bool :=
  let a := code c in
  let b := code c1 in
  let d := code c2 in
  ((a =? 225) && (b =? 154) && (d =? 128)
   || (a =? 226) && (b =? 128)
      && ((128 <=? d) && (d <=? 138) || (d =? 168) || (d =? 169) || (d =? 175))
   || (a =? 226) && (b =? 129) && (d =? 159)
   || (a =? 227) && (b =? 128) && (d =? 128)
   || (a =? 239) && (b =? 187) && (d =? 191))%nat.

(** What follows the white space character that [s] starts with, if
    any. *)
Definition dropSpace (s : string) : option string :=
  match s with
  | String c r =>
      if isSpace c then Some r
      else match r with
           | String c1 r1 =>
               if isSpace2 c c1 then Some r1
               else match r1 with
                    | String c2 r2 => if isSpace3 c c1 c2 then Some r2 else None
                    | EmptyString => None
                    end
           | EmptyString => None
           end
  | EmptyString => None
  end.

Fixpoint trimStartFrom (fuel : nat) (s : string) : string :=
  match fuel with
  | O => s
  | S fuel =>
      match dropSpace s with
      | Some r => trimStartFrom fuel r
      | None => s
      end
  end.

(** Each white space character takes at least one byte, so the length of
    [s] is fuel enough. *)
Definition trimStart (s : string) : string := trimStartFrom (String.length s) s.

(** [s] is made of white space only. *)
Definition allSpace (s : string) : bool :=
  match trimStart s with
  | EmptyString => true
  | _ => false
  end.

Fixpoint trimEnd (s : string) : string :=
  match s with
  | EmptyString => EmptyString
  | String c r => if allSpace s then EmptyString else String c (trimEnd r)
  end.

Definition trim (s : string) : string := trimEnd (trimStart s).

(** *** Property reads on object literals

    Every object literal inherits the properties of [Object.prototype];
    reading one of these names from a table that does not define it yields
    the inherited function (or, for [__proto__], the prototype object),
    which is truthy and is not a number. *)

Definition objectPrototype : list string :=
  [ "constructor"; "__defineGetter__"; "__defineSetter__"; "hasOwnProperty";
    "__lookupGetter__"; "__lookupSetter__"; "isPrototypeOf";
    "propertyIsEnumerable"; "toString"; "valueOf"; "__proto__";
    "toLocaleString" ].

Definition inherited (k : string) : bool :=
  existsb (String.eqb k) objectPrototype.

Inductive property (A : Type) : Type :=
| Own (a : A)
| Inherited (name : string)
| Absent.
Arguments Own {A} a.
Arguments Inherited {A} name.
Arguments Absent {A}.

Definition get {A : Type} (o : gmap string A) (k : string) : property A :=
  match o !! k with
  | Some a => Own a
  | None => if inherited k then Inherited k else Absent
  end.

(** [a || b] where [a] was read from a table of objects: an object is
    truthy, [undefined] is not. *)
Definition orElse {A : Type} (a b : property A) : property A :=
  match a with
  | Absent => b
  | _ => a
  end.

(** A value that is either a number or something inherited from
    [Object.prototype]. *)
Inductive value : Type :=
| VNum (n : number)
| VHost (name : string).

(** [ToNumber]: a function or a plain object converts to [NaN]. *)
Definition toNumber (v : value) : number :=
  match v with
  | VNum n => n
  | VHost _ => NaN
  end.

(** [a || b] where [a] was read from a table of numbers: zero and
    [undefined] are falsy. *)
Definition orNum (a : property Q) (b : value) : value :=
  match a with
  | Own q => if Qeq_bool q 0 then b else VNum (Num q)
  | Inherited f => VHost f
  | Absent => b
  end.

(** *** Exceptions and the random source *)

Inductive result (A : Type) : Type :=
| Ok (a : A)
| Throw.
Arguments Ok {A} a.
Arguments Throw {A}.

(** A computation that consumes draws of [Math.random()]. *)
Definition Rand (A : Type) : Type := (nat -> Q) -> A * (nat -> Q).

Definition ret {A : Type} (a : A) : Rand A := fun s => (a, s).

Definition bind {A B : Type} (m : Rand A) (f : A -> Rand B) : Rand B :=
  fun s => let (a, s') := m s in f a s'.

Definition Math_random : Rand number :=
  fun s => (Num (s 0%nat), fun n => s (S n)).

Definition run {A : Type} (m : Rand A) (s : nat -> Q) : A := fst (m s).

(** [Math.random()] returns a number in [[0, 1)]. *)
Definition unit_draws (s : nat -> Q) : Prop :=
  forall n, (0 <= s n)%Q /\ (s n < 1)%Q.

End JS.

Import JS.

Notation "'draw' x ':=' m 'in' k" := (bind m (fun x => k))
  (at level 10, x name, m at level 100, k at level 200).

(** ** The service *)

Module TripPlannerService.

Local Open Scope Q_scope.

(** *** Exchange rates *)

Definition mockRates : gmap string (gmap string Q) :=
  list_to_map
    [ ("USD", list_to_map [("EUR", 0.85); ("GBP", 0.73); ("INR", 83.12); ("JPY", 149.50)]);
      ("EUR", list_to_map [("USD", 1.18); ("GBP", 0.86); ("INR", 97.89); ("JPY", 176.19)]);
      ("GBP", list_to_map [("USD", 1.37); ("EUR", 1.16); ("INR", 113.87); ("JPY", 204.93)]);
      ("INR", list_to_map [("USD", 0.012); ("EUR", 0.010); ("GBP", 0.0088); ("JPY", 1.80)]) ].

(** The body of the [try] block: [mockRates[baseCurrency] || mockRates['USD']].
    The result is a rate table ([Own]), something found on
    [Object.prototype] ([Inherited]) or [undefined] ([Absent]). *)
Definition getExchangeRates_try (baseCurrency : string)
  : result (property (gmap string Q)) :=
  Ok (orElse (get mockRates baseCurrency) (get mockRates "USD")).

Definition getExchangeRates (baseCurrency : string) : property (gmap string Q) :=
  match getExchangeRates_try baseCurrency with
  | Ok r => r
  | Throw => Own {[ "USD" := 1 ]}
  end.

(** *** Pricing factors *)

Definition getSeasonalMultiplier (month : number) : number :=
  let peakMonths := [5; 6; 7; 8; 11]%Z in
  if includes peakMonths month then Num 1.3 else Num 0.9.

Definition multipliers : gmap string Q :=
  list_to_map
    [ ("Tokyo", 1.4); ("Paris", 1.3); ("London", 1.2); ("Dubai", 1.1);
      ("New York", 1.2); ("Mumbai", 0.6); ("Delhi", 0.5); ("Bangkok", 0.7);
      ("Singapore", 1.1) ].

(** [multipliers[destination] || 1.0] *)
Definition getDestinationMultiplier (destination : string) : value :=
  orNum (get multipliers destination) (VNum (Num 1.0)).

(** *** Flight details *)

Definition domesticDurations : gmap string Q :=
  list_to_map
    [ ("mumbai-delhi", 2.5); ("delhi-mumbai", 2.5);
      ("mumbai-kolkata", 3.0); ("kolkata-mumbai", 3.0);
      ("delhi-kolkata", 2.0); ("kolkata-delhi", 2.0);
      ("mumbai-goa", 1.5); ("goa-mumbai", 1.5);
      ("delhi-goa", 2.5); ("goa-delhi", 2.5);
      ("kolkata-goa", 2.5); ("goa-kolkata", 2.5);
      ("kolkata-imphal", 1.5); ("imphal-kolkata", 1.5);
      ("mumbai-bangalore", 2.0); ("bangalore-mumbai", 2.0);
      ("delhi-bangalore", 2.5); ("bangalore-delhi", 2.5);
      ("mumbai-chennai", 2.5); ("chennai-mumbai", 2.5);
      ("delhi-chennai", 2.5); ("chennai-delhi", 2.5);
      ("bangalore-chennai", 1.0); ("chennai-bangalore", 1.0);
      ("mumbai-hyderabad", 1.5); ("hyderabad-mumbai", 1.5);
      ("delhi-hyderabad", 2.0); ("hyderabad-delhi", 2.0);
      ("bangalore-hyderabad", 1.0); ("hyderabad-bangalore", 1.0);
      ("chennai-hyderabad", 1.5); ("hyderabad-chennai", 1.5) ].

Definition internationalDurations : gmap string Q :=
  list_to_map
    [ ("mumbai-dubai", 3.5); ("dubai-mumbai", 3.5);
      ("delhi-dubai", 3.5); ("dubai-delhi", 3.5);
      ("mumbai-london", 9.0); ("london-mumbai", 9.0);
      ("delhi-london", 8.5); ("london-delhi", 8.5);
      ("mumbai-paris", 9.5); ("paris-mumbai", 9.5);
      ("delhi-paris", 9.0); ("paris-delhi", 9.0);
      ("mumbai-new york", 15.0); ("new york-mumbai", 15.0);
      ("delhi-new york", 14.5); ("new york-delhi", 14.5);
      ("london-new york", 8.0); ("new york-london", 8.0);
      ("paris-new york", 8.5); ("new york-paris", 8.5);
      ("london-paris", 1.5); ("paris-london", 1.5);
      ("dubai-london", 7.0); ("london-dubai", 7.0);
      ("dubai-paris", 7.5); ("paris-dubai", 7.5) ].

Record FlightDetails : Type := {
  fd_duration : string;
  fd_stops : Z
}.

(** The duration found for a route, before the jitter:
    [table[routeKey] || table[reverseRouteKey] || fallback]. *)
Definition baseDuration (origin destination : string) (isDomestic : bool) : value :=
  let routeKey := toLowerCase origin +:+ "-" +:+ toLowerCase destination in
  let reverseRouteKey := toLowerCase destination +:+ "-" +:+ toLowerCase origin in
  if isDomestic
  then orNum (get domesticDurations routeKey)
         (orNum (get domesticDurations reverseRouteKey) (VNum (Num 2.0)))
  else orNum (get internationalDurations routeKey)
         (orNum (get internationalDurations reverseRouteKey) (VNum (Num 8.0))).

(** [duration += variation], with [variation = (Math.random() - 0.5) * 0.5]. *)
Definition jitter (duration r : number) : number :=
  let variation := mul (sub r (Num 0.5)) (Num 0.5) in
  add duration variation.

(** The stop count chosen for a resolved [duration] and a draw [r]. *)
Definition stopsFor (isDomestic : bool) (duration r : number) : Z :=
  if isDomestic then
    if gt r (Num 0.8) then 1%Z else 0%Z
  else if lt duration (Num 5) then
    if gt r (Num 0.7) then 0%Z else 1%Z
  else if lt duration (Num 10) then
    if gt r (Num 0.5) then 1%Z else 0%Z
  else
    if gt r (Num 0.3) then 1%Z else 2%Z.

Definition formatDuration (duration : number) : string :=
  let hours := Math_floor duration in
  let minutes := Math_round (mul (sub duration hours) (Num 60)) in
  toString hours +:+ "h " +:+ toString minutes +:+ "m".

(** A route key contains a dash and so never names an inherited property
    (see [baseDuration_number] below); [toNumber] only fixes the type. *)
Definition getFlightDetails (origin destination : string) (isDomestic : bool)
  : Rand FlightDetails :=
  let duration := toNumber (baseDuration origin destination isDomestic) in
  draw r1 := Math_random in
  let duration := jitter duration r1 in
  draw r2 := Math_random in
  let stops := stopsFor isDomestic duration r2 in
  ret {| fd_duration := formatDuration duration; fd_stops := stops |}.

(** *** Flights *)

Definition routes : gmap string (gmap string Q) :=
  list_to_map
    [ ("new york", list_to_map [("paris", 450); ("tokyo", 800); ("london", 400); ("dubai", 600); ("mumbai", 900); ("delhi", 850)]);
      ("london", list_to_map [("paris", 150); ("tokyo", 700); ("new york", 400); ("dubai", 350); ("mumbai", 500); ("delhi", 480)]);
      ("mumbai", list_to_map [("dubai", 200); ("london", 500); ("paris", 550); ("tokyo", 400); ("new york", 900); ("delhi", 80); ("kolkata", 120); ("goa", 150); ("bangalore", 100); ("chennai", 110); ("hyderabad", 90)]);
      ("delhi", list_to_map [("dubai", 180); ("london", 480); ("paris", 520); ("tokyo", 380); ("new york", 850); ("mumbai", 80); ("kolkata", 100); ("goa", 130); ("bangalore", 120); ("chennai", 130); ("hyderabad", 70)]);
      ("kolkata", list_to_map [("mumbai", 120); ("delhi", 100); ("goa", 180); ("bangalore", 140); ("chennai", 150); ("hyderabad", 120); ("dubai", 250); ("singapore", 300); ("imphal", 100)]);
      ("goa", list_to_map [("mumbai", 150); ("delhi", 130); ("kolkata", 180); ("bangalore", 160); ("chennai", 170); ("hyderabad", 140)]);
      ("bangalore", list_to_map [("mumbai", 100); ("delhi", 120); ("kolkata", 140); ("goa", 160); ("chennai", 50); ("hyderabad", 60); ("dubai", 220)]);
      ("chennai", list_to_map [("mumbai", 110); ("delhi", 130); ("kolkata", 150); ("goa", 170); ("bangalore", 50); ("hyderabad", 80)]);
      ("hyderabad", list_to_map [("mumbai", 90); ("delhi", 70); ("kolkata", 120); ("goa", 140); ("bangalore", 60); ("chennai", 80)]);
      ("paris", list_to_map [("london", 150); ("new york", 450); ("tokyo", 650); ("dubai", 400)]);
      ("tokyo", list_to_map [("new york", 800); ("london", 700); ("paris", 650); ("dubai", 550)]);
      ("dubai", list_to_map [("london", 350); ("paris", 400); ("new york", 600); ("tokyo", 550); ("mumbai", 200); ("delhi", 180)]) ].

Definition indianCities : list string :=
  [ "Mumbai"; "Delhi"; "Kolkata"; "Goa"; "Bangalore"; "Chennai"; "Hyderabad";
    "Ahmedabad"; "Jaipur"; "Pune"; "Imphal"; "Guwahati"; "Shillong";
    "Agartala"; "Aizawl"; "Dibrugarh"; "Silchar" ].

Definition domesticAirlines : list string :=
  [ "Indigo"; "Air India"; "SpiceJet"; "Vistara"; "GoAir" ].

Definition internationalAirlines : list string :=
  [ "Emirates"; "British Airways"; "Lufthansa"; "Air India"; "Qatar Airways";
    "Singapore Airlines"; "Thai Airways" ].

Definition bookingClasses : list string :=
  [ "Economy"; "Premium Economy"; "Business" ].

Record FlightQuote : Type := {
  price : number;
  airline : option string;
  duration : string;
  stops : Z;
  flightAvailability : bool;
  bookingClass : option string;
  baggage : string;
  refundable : bool
}.

(** [l[Math.floor(r * l.length)]] *)
Definition pick (l : list string) (r : number) : option string :=
  index l (Math_floor (mul r (Int (Z.of_nat (length l))))).

Section Host.

(** Two things come from the host rather than from the service.
    [Date_getMonth s] is [new Date(s).getMonth()]: a month index, or [NaN]
    for a date that does not parse.  [hostBasePrice f k] stands for
    [Object.prototype[f][k] || 500], read when the origin names a property of
    [Object.prototype]: the number this value contributes as a factor of the
    price, or [Throw] when the read raises. *)
Variable Date_getMonth : string -> number.
Variable hostBasePrice : string -> string -> result number.

(** [routes[lowerOrigin]?.[lowerDestination] || 500], as the factor it
    contributes to the price. *)
Definition basePrice (lowerOrigin lowerDestination : string) : result number :=
  match get routes lowerOrigin with
  | Own inner => Ok (toNumber (orNum (get inner lowerDestination) (VNum (Num 500))))
  | Inherited f => hostBasePrice f lowerDestination
  | Absent => Ok (Num 500)
  end.

(** [Math.random() * 0.5 - 0.25] *)
Definition flightVariation (r : number) : number :=
  sub (mul r (Num 0.5)) (Num 0.25).

Definition flightPrice (basePrice variation seasonalMultiplier : number) : number :=
  Math_round (mul (mul basePrice (add (Num 1) variation)) seasonalMultiplier).

Definition mockFlightAPI (origin destination departDate returnDate : string)
    (passengers : number) : Rand (result FlightQuote) :=
  let lowerOrigin := toLowerCase (trim origin) in
  let lowerDestination := toLowerCase (trim destination) in
  match basePrice lowerOrigin lowerDestination with
  | Throw => ret Throw
  | Ok basePrice =>
      draw r := Math_random in
      let variation := flightVariation r in
      let seasonalMultiplier := getSeasonalMultiplier (Date_getMonth departDate) in
      let isDomestic :=
        existsb (fun city => String.eqb (toLowerCase city) lowerOrigin) indianCities
        && existsb (fun city => String.eqb (toLowerCase city) lowerDestination) indianCities in
      let airlines := if isDomestic then domesticAirlines else internationalAirlines in
      draw flightDetails := getFlightDetails lowerOrigin lowerDestination isDomestic in
      draw rAirline := Math_random in
      draw rAvailable := Math_random in
      draw rClass := Math_random in
      draw rRefund := Math_random in
      ret (Ok {| price := flightPrice basePrice variation seasonalMultiplier;
                 airline := pick airlines rAirline;
                 duration := fd_duration flightDetails;
                 stops := fd_stops flightDetails;
                 flightAvailability := gt rAvailable (Num 0.2);
                 bookingClass := pick bookingClasses rClass;
                 baggage := "20kg included";
                 refundable := gt rRefund (Num 0.5) |})
  end.

End Host.

(** *** Hotels *)

Record HotelType : Type := {
  name : string;
  rating : Q;
  amenities : list string;
  hotelBasePrice : Q
}.

Definition hotelTypes : gmap string HotelType :=
  list_to_map
    [ ("budget", {| name := "Budget Inn"; rating := 2.5;
                    amenities := ["WiFi"; "Breakfast"]; hotelBasePrice := 60 |});
      ("standard", {| name := "Comfort Hotel"; rating := 4.0;
                      amenities := ["WiFi"; "Pool"; "Gym"; "Restaurant"];
                      hotelBasePrice := 120 |});
      ("luxury", {| name := "Grand Resort"; rating := 4.8;
                    amenities := ["WiFi"; "Spa"; "Pool"; "Concierge"; "Fine Dining"];
                    hotelBasePrice := 280 |}) ].

Record HotelQuote : Type := {
  pricePerNight : number;
  hotelName : string;
  hotelRating : Q;
  hotelAmenities : list string;
  hotelAvailability : bool;
  cancellation : bool;
  breakfast : bool;
  wifi : bool;
  location : string
}.

(** [Math.random() * 0.3 - 0.15] *)
Definition hotelVariation (r : number) : number :=
  sub (mul r (Num 0.3)) (Num 0.15).

Definition hotelPrice (basePrice : Q) (variation : number) (destinationMultiplier : value)
  : number :=
  Math_round (mul (mul (Num basePrice) (add (Num 1) variation))
                  (toNumber destinationMultiplier)).

(** When [roomType] names a property of [Object.prototype], [hotel] is that
    inherited value: it has no [amenities], and
    [hotel.amenities.includes('Breakfast')] raises a [TypeError]. *)
Definition mockHotelAPI (destination checkIn checkOut : string) (guests : number)
    (roomType : string) : Rand (result HotelQuote) :=
  let hotel := orElse (get hotelTypes roomType) (get hotelTypes "standard") in
  draw r := Math_random in
  let variation := hotelVariation r in
  let destinationMultiplier := getDestinationMultiplier destination in
  draw rAvailable := Math_random in
  match hotel with
  | Own hotel =>
      ret (Ok {| pricePerNight :=
                   hotelPrice (hotelBasePrice hotel) variation destinationMultiplier;
                 hotelName := name hotel;
                 hotelRating := rating hotel;
                 hotelAmenities := amenities hotel;
                 hotelAvailability := gt rAvailable (Num 0.15);
                 cancellation := negb (String.eqb roomType "budget");
                 breakfast := existsb (String.eqb "Breakfast") (amenities hotel);
                 wifi := true;
                 location := "City Center" |})
  | _ => ret Throw
  end.

(** *** Activities *)

Definition activities : gmap string (list string) :=
  list_to_map
    [ ("cultural", ["Museum Tour"; "Historical Walk"; "Art Gallery Visit"; "Cultural Show"]);
      ("adventure", ["Hiking Tour"; "Water Sports"; "Rock Climbing"; "Zip Lining"]);
      ("food", ["Food Tour"; "Cooking Class"; "Wine Tasting"; "Street Food Walk"]);
      ("nature", ["Nature Walk"; "Wildlife Safari"; "Botanical Garden"; "Beach Day"]);
      ("default", ["City Tour"; "Sightseeing"; "Local Experience"; "Photography Walk"]) ].

Record ActivityQuote : Type := {
  averagePrice : number;
  recommendedActivities : list string;
  totalActivities : number;
  bookingRequired : bool;
  groupDiscount : bool;
  cancellationPolicy : string
}.

(** [interests.length > 0 ? interests[0] : 'default'] *)
Definition firstInterest (interests : list string) : string :=
  match interests with
  | [] => "default"
  | first :: _ => first
  end.

(** When the first interest names a property of [Object.prototype],
    [availableActivities] is that inherited value: it has no [slice], and
    calling it raises a [TypeError]. *)
Definition mockActivityAPI (destination : string) (duration travelers : number)
    (interests : list string) : Rand (result ActivityQuote) :=
  let activityType := firstInterest interests in
  let availableActivities :=
    orElse (get activities activityType) (get activities "default") in
  draw rPrice := Math_random in
  match availableActivities with
  | Own availableActivities =>
      draw rBooking := Math_random in
      ret (Ok {| averagePrice := Math_round (add (Num 25) (mul rPrice (Num 75)));
                 recommendedActivities :=
                   slice0 availableActivities (Math_min duration (Num 4));
                 totalActivities := Math_min (mul duration (Num 2)) (Num 10);
                 bookingRequired := gt rBooking (Num 0.3);
                 groupDiscount := gt travelers (Num 4);
                 cancellationPolicy := "24 hours free cancellation" |})
  | _ => ret Throw
  end.

(** *** Advice *)

Definition budgetAdvice : list string :=
  [ "🏠 Consider hostels or budget hotels for accommodation";
    "🚌 Use public transportation to save on travel costs";
    "🚶 Look for free walking tours and city attractions";
    "🍜 Try local street food for authentic and affordable meals" ].

Definition luxuryAdvice : list string :=
  [ "✈️ Book flights 2-3 months in advance for better deals";
    "🏨 Consider package deals for flights + hotels";
    "🍾 Look for hotel packages that include breakfast and amenities" ].

Definition longStayAdvice : list string :=
  [ "📅 Book longer stays for potential accommodation discounts";
    "🎫 Consider weekly transport passes for better value";
    "🗓️ Plan rest days to avoid burnout and extra costs" ].

Definition peakSeasonAdvice : list string :=
  [ "📈 This is peak season - book early for better prices";
    "📉 Consider shoulder season for 20-30% savings";
    "🎪 Expect crowds at popular attractions" ].

Definition offPeakAdvice : list string :=
  [ "💰 Great choice! Off-peak season offers better value";
    "🌤️ Weather might be less predictable, pack accordingly" ].

Definition groupAdvice : list string :=
  [ "👥 Look for group discounts on activities and tours";
    "🏠 Consider vacation rentals for larger groups" ].

(** [recommendations.push(s)], for each [s] of a rule in turn. *)
Definition push (recommendations : list string) (s : string) : list string :=
  recommendations ++ [s].

Definition pushAll (recommendations rule : list string) : list string :=
  fold_left push rule recommendations.

Definition generateRecommendations (destination budgetType : string)
    (month duration travelers : number) : list string :=
  let recommendations := [] in
  let recommendations :=
    if String.eqb budgetType "budget" then pushAll recommendations budgetAdvice
    else if String.eqb budgetType "luxury" then pushAll recommendations luxuryAdvice
    else recommendations in
  let recommendations :=
    if gt duration (Num 7) then pushAll recommendations longStayAdvice
    else recommendations in
  let peakMonths := [5; 6; 7; 8; 11]%Z in
  let recommendations :=
    if includes peakMonths month then pushAll recommendations peakSeasonAdvice
    else pushAll recommendations offPeakAdvice in
  let recommendations :=
    if gt travelers (Num 4) then pushAll recommendations groupAdvice
    else recommendations in
  recommendations.

(** *** Saving tips *)

Definition shoulderSeasonTips : list string :=
  [ "💡 Travel in shoulder season to save 20-30%";
    "💡 Book accommodations with free cancellation for flexibility" ].

Definition luxuryTips : list string :=
  [ "💡 Use travel reward credit cards for points and perks";
    "💡 Book directly with hotels for potential upgrades" ].

Definition longTripTips : list string :=
  [ "💡 Look for weekly accommodation rates";
    "💡 Cook some meals to reduce food costs";
    "💡 Use city tourism cards for attraction discounts" ].

Definition universalTips : list string :=
  [ "💡 Compare prices across multiple booking platforms";
    "💡 Set price alerts for flights and hotels";
    "💡 Consider travel insurance for peace of mind";
    "💡 Download offline maps to avoid roaming charges" ].

Definition generateSavingTips (budgetType : string) (duration seasonalMultiplier : number)
    (destination : string) : list string :=
  let tips := [] in
  let tips :=
    if gt seasonalMultiplier (Num 1.2) then pushAll tips shoulderSeasonTips else tips in
  let tips :=
    if String.eqb budgetType "luxury" then pushAll tips luxuryTips else tips in
  let tips :=
    if gt duration (Num 5) then pushAll tips longTripTips else tips in
  pushAll tips universalTips.

(** *** The public entry points

    Each awaits its mock inside a [try] block and returns what it
    resolves to; a rejection is caught, logged with [console.error] (not
    modelled) and replaced by a new [Error] with a fixed message. *)

Inductive promise (A : Type) : Type :=
| Resolved (a : A)
| Rejected (message : string).
Arguments Resolved {A} a.
Arguments Rejected {A} message.

Definition orRethrow {A : Type} (mockData : result A) (message : string) : promise A :=
  match mockData with
  | Ok a => Resolved a
  | Throw => Rejected message
  end.

Section EntryPoints.

Variable Date_getMonth : string -> number.
Variable hostBasePrice : string -> string -> result number.

(** An omitted argument ([None]) takes the default of the signature:
    [passengers = 1], [roomType = 'standard'], [interests = []].  The
    arguments are taken at the types the service is written for: names and
    dates are strings, [interests] is an array of strings. *)
Definition getFlightPrices (origin destination departDate returnDate : string)
    (passengers : option number) : Rand (promise FlightQuote) :=
  let passengers := default (Int 1) passengers in
  draw mockData := mockFlightAPI Date_getMonth hostBasePrice origin destination
                     departDate returnDate passengers in
  ret (orRethrow mockData "Failed to fetch flight prices").

End EntryPoints.

Definition getHotelPrices (destination checkIn checkOut : string) (guests : number)
    (roomType : option string) : Rand (promise HotelQuote) :=
  let roomType := default "standard" roomType in
  draw mockData := mockHotelAPI destination checkIn checkOut guests roomType in
  ret (orRethrow mockData "Failed to fetch hotel prices").

Definition getActivityPrices (destination : string) (duration travelers : number)
    (interests : option (list string)) : Rand (promise ActivityQuote) :=
  let interests := default [] interests in
  draw mockData := mockActivityAPI destination duration travelers interests in
  ret (orRethrow mockData "Failed to fetch activity prices").

End TripPlannerService.

Import TripPlannerService.

(** ** Vocabulary of the properties *)

Local Open Scope Q_scope.

(** [n > 0], as the source would test it. *)
Definition isPositive (n : number) : Prop := gt n (Num 0) = true.

(** Two numbers denote the same value. *)
Definition same (a b : number) : Prop :=
  match a, b with
  | Num x, Num y => x == y
  | NaN, NaN => True
  | _, _ => False
  end.

(** What the tables are checked for, entry by entry. *)
Definition fareOK (p : Q) : bool := Qle_bool 50 p && negb (Qeq_bool p 0).

Definition tierOK (h : HotelType) : bool :=
  Qle_bool 60 (hotelBasePrice h) && Qle_bool (hotelBasePrice h) 280
  && negb (String.eqb (name h) "")
  && negb (Nat.eqb (length (amenities h)) 0).

Definition multiplierOK (m : Q) : bool :=
  Qle_bool 0.5 m && Qle_bool m 1.4 && negb (Qeq_bool m 0).

(** A quote with a positive price and non-empty labels. *)
Definition flightQuoteOK (q : FlightQuote) : Prop :=
  isPositive (price q) /\ exists a, airline q = Some a /\ a <> "".

Definition hotelQuoteOK (q : HotelQuote) : Prop :=
  isPositive (pricePerNight q) /\ hotelName q <> "" /\ hotelAmenities q <> [].

Definition activityQuoteOK (q : ActivityQuote) : Prop :=
  isPositive (averagePrice q) /\ recommendedActivities q <> [].

(** The stream whose every draw is one half. *)
Definition halves : nat -> Q := fun _ => 1 # 2.

(** A host for closed examples: July, and built-in objects without the
    member that is read. *)
Definition july : string -> number := fun _ => Int 6.
Definition bareHost : string -> string -> result number := fun _ _ => Ok (Num 500).

(** Route keys contain a dash, names of inherited properties do not. *)
Fixpoint hasDash (s : string) : bool :=
  match s with
  | EmptyString => false
  | String c r => Ascii.eqb c "-" || hasDash r
  end.

Definition durationOK (q : Q) : bool :=
  Qle_bool 1 q && Qle_bool q 15 && negb (Qeq_bool q 0).

(** The draws of one call of [getFlightDetails]: no jitter, then [r]. *)
Definition stopDraws (r : Q) : nat -> Q :=
  fun n => match n with O => 1 # 2 | S _ => r end.

(** Among the [n] evenly spaced draws [0/n, 1/n, ..., (n-1)/n], how many
    give an international flight at least one stop. *)
Definition stopFrequency (n : positive) (origin destination : string) : nat :=
  length
    (List.filter
       (fun k => (1 <=? fd_stops (run (getFlightDetails origin destination false)
                                      (stopDraws (Z.of_nat k # n))))%Z)
       (seq 0 (Pos.to_nat n))).

(** The USD entry of [mockRates]. *)
Definition usdRates : gmap string Q :=
  list_to_map [("EUR", 0.85); ("GBP", 0.73); ("INR", 83.12); ("JPY", 149.50)].

(** The fare the route table lists for a direction, if any. *)
Definition fare (o d : string) : option Q :=
  match routes !! o with
  | Some inner => inner !! d
  | None => None
  end.

Definition returnFareAgrees (o d : string) (p : Q) : bool :=
  match fare d o with
  | Some q => Qeq_bool p q
  | None => true
  end.

(** In [l], every string of [A] comes before every string of [B]. *)
Definition precedes (l A B : list string) : Prop :=
  forall i j a b,
    l !! i = Some a -> l !! j = Some b -> In a A -> In b B -> (i < j)%nat.

Definition disjointb (A l : list string) : bool :=
  forallb (fun a => negb (existsb (String.eqb a) l)) A.

(** Decimal digits of an integer, as a template literal prints it. *)
Definition decimal (z : Z) : string := NilZero.string_of_int (Z.to_int z).

Fixpoint countDash (s : string) : nat :=
  match s with
  | EmptyString => 0
  | String c r => (if Ascii.eqb c "-" then 1 else 0) + countDash r
  end.

(** The two sides of the first dash of a route key. *)
Fixpoint splitDash (s : string) : option (string * string) :=
  match s with
  | EmptyString => None
  | String c r =>
      if Ascii.eqb c "-" then Some (EmptyString, r)
      else match splitDash r with
           | Some (a, b) => Some (String c a, b)
           | None => None
           end
  end.

(** The same fraction, numerator and denominator. *)
Definition sameQ (p q : Q) : bool :=
  Z.eqb (Qnum p) (Qnum q) && Pos.eqb (Qden p) (Qden q).

(** The key has one dash, and the key of the opposite direction, when the
    table has it, carries the same duration. *)
Definition reverseAgrees (t : gmap string Q) (k : string) (p : Q) : bool :=
  Nat.eqb (countDash k) 1
  && match splitDash k with
     | Some (o, d) =>
         match t !! (d +:+ "-" +:+ o) with
         | Some q => sameQ p q
         | None => true
         end
     | None => false
     end.

(** The lower-cased name is one of the Indian cities. *)
Definition isIndian (lower : string) : bool :=
  existsb (fun city => String.eqb (toLowerCase city) lower) indianCities.

(** [peakMonths.includes(month)] *)
Definition peakMonth (month : number) : bool := includes [5; 6; 7; 8; 11]%Z month.

(** A calendar for closed examples: the months of two dates, and [NaN]
    for any other string, as for a date that does not parse. *)
Definition calendar (date : string) : number :=
  if String.eqb date "2024-07-01" then Int 6
  else if String.eqb date "2024-02-01" then Int 1
  else NaN.

(** What ties a tier to its key: breakfast is an amenity of the budget
    tier only, WiFi of every tier, and the rating is between 2.5 and 4.8. *)
Definition tierConsistent (k : string) (h : HotelType) : bool :=
  Bool.eqb (existsb (String.eqb "Breakfast") (amenities h)) (String.eqb k "budget")
  && existsb (String.eqb "WiFi") (amenities h)
  && Qle_bool 2.5 (rating h) && Qle_bool (rating h) 4.8.

(** The advice of each rule, as a block: empty when the rule does not
    fire. *)
Definition budgetBlock (budgetType : string) : list string :=
  if String.eqb budgetType "budget" then budgetAdvice
  else if String.eqb budgetType "luxury" then luxuryAdvice
  else [].

Definition durationBlock (duration : number) : list string :=
  if gt duration (Num 7) then longStayAdvice else [].

Definition seasonBlock (month : number) : list string :=
  if peakMonth month then peakSeasonAdvice else offPeakAdvice.

Definition groupBlock (travelers : number) : list string :=
  if gt travelers (Num 4) then groupAdvice else [].

(** The currencies [mockRates] has a table for. *)
Definition baseCurrencies : list string := ["USD"; "EUR"; "GBP"; "INR"].

(** Converting from [a] to [b] at the rate [x] and back, when [mockRates]
    has the rate of the way back, changes an amount by less than 2.2
    percent. *)
Definition roundTripOK (a b : string) (x : Q) : bool :=
  match mockRates !! b with
  | Some tb =>
      match tb !! a with
      | Some y => Qle_bool 0.978 (x * y) && Qle_bool (x * y) 1.004
      | None => true
      end
  | None => true
  end.

(** A table has four rates, all positive. *)
Definition ratesOK (t : gmap string Q) : bool :=
  Nat.eqb (size t) 4
  && bool_decide (map_Forall (fun (_ : string) r => Qle_bool r 0 = false) t).

(** The EUR and INR entries of [mockRates]. *)
Definition eurRates : gmap string Q :=
  list_to_map [("USD", 1.18); ("GBP", 0.86); ("INR", 97.89); ("JPY", 176.19)].

Definition inrRates : gmap string Q :=
  list_to_map [("USD", 0.012); ("EUR", 0.010); ("GBP", 0.0088); ("JPY", 1.80)].

(** [s] starts with the KELVIN SIGN. *)
Definition kelvinHead (s : string) : bool :=
  match s with
  | String c (String c1 (String c2 _)) => isKelvin c c1 c2
  | _ => false
  end.

(** [z] is a whole number nearest to [x].  The source forms [x] as a
    product of doubles before rounding it, so the product it rounds may
    differ from [x] by a relative error far below the [1e-12] allowed for
    here: next to a half-way point the price may be either neighbour. *)
Definition nearest (z : Z) (x : Q) : Prop :=
  Qabs (inject_Z z - x) <= (1 # 2) + Qabs x * (1 # 1000000000000).

(** More than the distance between a decimal literal of the source in
    [[0, 1]] and the double that stands for it. *)
Definition slack : Q := 1 # 1000000000000.

(** The first interest is a key of [activities]. *)
Definition isCategory (interest : string) : bool :=
  existsb (String.eqb interest) ["cultural"; "adventure"; "food"; "nature"; "default"].

(** NO-BREAK SPACE and KELVIN SIGN, for closed examples. *)
Definition nbsp : string := String (ascii_of_nat 194) (String (ascii_of_nat 160) "").
Definition kelvinSign : string :=
  String (ascii_of_nat 226) (String (ascii_of_nat 132) (String (ascii_of_nat 170) "")).

(** ** Properties *)

(** A fact about every entry of a table, settled by reading the table. *)
Ltac table_scan := apply (bool_decide_unpack _); vm_compute; exact I.

(** Turns the boolean checks of a hypothesis into propositions. *)
Ltac reflect_checks H :=
  repeat rewrite andb_true_iff in H;
  repeat rewrite negb_true_iff in H;
  repeat rewrite Qle_bool_iff in H.

(** *** Numbers and draws *)

Lemma lt_Num x y : lt (Num x) (Num y) = true <-> x < y.
Proof.
  unfold lt. rewrite negb_true_iff. split; intros H.
  - apply Qnot_le_lt. intros Hle. apply Qle_bool_iff in Hle. congruence.
  - destruct (Qle_bool y x) eqn:E; [|reflexivity].
    apply Qle_bool_iff in E. exfalso. apply (Qlt_not_le _ _ H E).
Qed.

Lemma lt_Num_false x y : lt (Num x) (Num y) = false <-> y <= x.
Proof.
  unfold lt. rewrite negb_false_iff. apply Qle_bool_iff.
Qed.

Lemma gt_Num x y : gt (Num x) (Num y) = true <-> y < x.
Proof. apply lt_Num. Qed.

Lemma roundQ_le x y : x <= y -> (roundQ x <= roundQ y)%Z.
Proof.
  intros H. unfold roundQ. apply Qfloor_resp_le. lra.
Qed.

Lemma roundQ_pos x : 1 # 2 <= x -> (0 < roundQ x)%Z.
Proof.
  intros H. unfold roundQ.
  assert (Hf : (Qfloor 1 <= Qfloor (x + (1 # 2)))%Z) by (apply Qfloor_resp_le; lra).
  change (Qfloor 1) with 1%Z in Hf. lia.
Qed.

Lemma isPositive_Int z : (0 < z)%Z -> isPositive (Int z).
Proof.
  intros H. apply gt_Num. change 0 with (inject_Z 0). now rewrite <- Zlt_Qlt.
Qed.

(** Bounds on a product of three non-negative factors. *)
Lemma product_lower b f m b0 f0 m0 :
  0 <= b0 -> 0 <= f0 -> 0 <= m0 -> b0 <= b -> f0 <= f -> m0 <= m ->
  b0 * f0 * m0 <= b * f * m.
Proof.
  intros Hb0 Hf0 Hm0 Hb Hf Hm.
  assert (H1 : b0 * f0 <= b * f) by nra.
  assert (H2 : 0 <= b0 * f0) by nra.
  nra.
Qed.

Lemma product_upper b f m b1 f1 m1 :
  0 <= b -> 0 <= f -> 0 <= m -> b <= b1 -> f <= f1 -> m <= m1 ->
  b * f * m <= b1 * f1 * m1.
Proof.
  intros Hb0 Hf0 Hm0 Hb Hf Hm.
  apply product_lower; assumption.
Qed.

Lemma unit_draws_tail s : unit_draws s -> unit_draws (fun n => s (S n)).
Proof. intros H n. apply H. Qed.

(** *** Reading a table *)

Lemma get_cases {A : Type} (o : gmap string A) (k : string) :
  (exists a, o !! k = Some a /\ get o k = Own a)
  \/ (o !! k = None /\ inherited k = true /\ get o k = Inherited k)
  \/ (o !! k = None /\ inherited k = false /\ get o k = Absent).
Proof.
  unfold get. destruct (o !! k) as [a|]; [left; eauto |].
  destruct (inherited k); [right; left | right; right]; easy.
Qed.

Lemma get_own {A : Type} (o : gmap string A) (k : string) (a : A) :
  o !! k = Some a -> get o k = Own a.
Proof. intros H. unfold get. now rewrite H. Qed.

(** *** Facts about the tables, checked entry by entry *)

Lemma routes_fares :
  map_Forall (fun _ inner => map_Forall (fun (_ : string) p => fareOK p = true) inner)
             routes.
Proof. table_scan. Qed.

Lemma routes_fare o d inner p :
  routes !! o = Some inner -> inner !! d = Some p -> 50 <= p /\ Qeq_bool p 0 = false.
Proof.
  intros Ho Hd.
  pose proof (map_Forall_lookup_1 _ _ _ _ (map_Forall_lookup_1 _ _ _ _ routes_fares Ho) Hd) as H.
  unfold fareOK in H. reflect_checks H. exact H.
Qed.

Section BasePrice.

Variable hostBasePrice : string -> string -> result number.

(** Away from the inherited names the base price is a fare of the table or
    the default 500. *)
Lemma basePrice_plain lo ld :
  inherited lo = false -> inherited ld = false ->
  exists b, basePrice hostBasePrice lo ld = Ok (Num b) /\ 50 <= b.
Proof.
  intros Hlo Hld. unfold basePrice, get.
  destruct (routes !! lo) as [inner|] eqn:Ho.
  - destruct (inner !! ld) as [p|] eqn:Hd.
    + destruct (routes_fare _ _ _ _ Ho Hd) as [Hp Hz].
      exists p. cbn. rewrite Hz. easy.
    + rewrite Hld. cbn. exists 500. split; [reflexivity | lra].
  - rewrite Hlo. exists 500. split; [reflexivity | lra].
Qed.

End BasePrice.

(** *** Picking from a list with a draw *)

Lemma floor_scaled_range r (n : nat) :
  0 <= r -> r < 1 -> (0 < n)%nat ->
  (0 <= Qfloor (r * inject_Z (Z.of_nat n)) < Z.of_nat n)%Z.
Proof.
  intros H0 H1 Hn.
  assert (Hq : 0 < inject_Z (Z.of_nat n)).
  { change 0 with (inject_Z 0). rewrite <- Zlt_Qlt. lia. }
  split.
  - change 0%Z with (Qfloor 0). apply Qfloor_resp_le. nra.
  - rewrite Zlt_Qlt.
    apply Qle_lt_trans with (r * inject_Z (Z.of_nat n)); [apply Qfloor_le | nra].
Qed.

Lemma index_Int {A : Type} (l : list A) (k : Z) :
  (0 <= k)%Z -> index l (Int k) = l !! Z.to_nat k.
Proof.
  intros Hk. unfold index, Int. rewrite Qfloor_Z.
  assert (E : Qeq_bool (inject_Z k) (inject_Z k) = true) by (apply Qeq_bool_iff; reflexivity).
  rewrite E. cbn. destruct (Z.leb_spec 0 k); [reflexivity | lia].
Qed.

Lemma pick_unit (l : list string) r :
  l <> [] -> 0 <= r -> r < 1 -> exists a, pick l (Num r) = Some a /\ In a l.
Proof.
  intros Hl H0 H1. unfold pick. cbn [mul Int Math_floor].
  assert (Hn : (0 < length l)%nat) by (destruct l; [congruence | cbn; lia]).
  destruct (floor_scaled_range r (length l) H0 H1 Hn) as [Hk0 Hk1].
  fold (Int (Qfloor (r * inject_Z (Z.of_nat (length l))))).
  rewrite index_Int by assumption.
  destruct (lookup_lt_is_Some_2 l (Z.to_nat (Qfloor (r * inject_Z (Z.of_nat (length l))))))
    as [a Ha]; [lia |].
  exists a. split; [assumption |].
  apply list_elem_of_In. eapply list_elem_of_lookup_2. eassumption.
Qed.

Lemma seasonal_cases m :
  getSeasonalMultiplier m = Num 1.3 \/ getSeasonalMultiplier m = Num 0.9.
Proof.
  unfold getSeasonalMultiplier. destruct (includes _ m); [left | right]; reflexivity.
Qed.

Lemma flightVariation_range r :
  0 <= r -> r < 1 ->
  flightVariation (Num r) = Num (r * 0.5 - 0.25)
  /\ - 0.25 <= r * 0.5 - 0.25 /\ r * 0.5 - 0.25 < 0.25.
Proof. intros H0 H1. split; [reflexivity | split; lra]. Qed.

Lemma hotelVariation_range r :
  0 <= r -> r < 1 ->
  hotelVariation (Num r) = Num (r * 0.3 - 0.15)
  /\ - 0.15 <= r * 0.3 - 0.15 /\ r * 0.3 - 0.15 < 0.15.
Proof. intros H0 H1. split; [reflexivity | split; lra]. Qed.

Lemma nonempty_members (l : list string) a :
  In a l -> forallb (fun x => negb (String.eqb x "")) l = true -> a <> "".
Proof.
  intros Hin Hall Ha. subst a.
  rewrite forallb_forall in Hall. specialize (Hall _ Hin). discriminate.
Qed.

(** *** The tiers, multipliers and activity lists *)

Lemma hotelTypes_tiers : map_Forall (fun _ h => tierOK h = true) hotelTypes.
Proof. table_scan. Qed.

Lemma hotelTypes_standard : exists h, hotelTypes !! "standard" = Some h.
Proof. eexists. vm_compute. reflexivity. Qed.

(** The tier a room type resolves to: one of the table, [standard] for an
    unknown name, or an inherited value. *)
Lemma hotel_tier roomType :
  (exists h, orElse (get hotelTypes roomType) (get hotelTypes "standard") = Own h
             /\ tierOK h = true)
  \/ (orElse (get hotelTypes roomType) (get hotelTypes "standard") = Inherited roomType
      /\ inherited roomType = true).
Proof.
  destruct (get_cases hotelTypes roomType) as [(h & E & ->) | [(E & Ei & ->) | (E & Ei & ->)]].
  - left. exists h. split; [reflexivity |]. exact (map_Forall_lookup_1 _ _ _ _ hotelTypes_tiers E).
  - right. split; [reflexivity | assumption].
  - left. cbn [orElse]. destruct hotelTypes_standard as [h Hh].
    rewrite (get_own _ _ _ Hh). exists h.
    split; [reflexivity |]. exact (map_Forall_lookup_1 _ _ _ _ hotelTypes_tiers Hh).
Qed.

Lemma multipliers_range : map_Forall (fun (_ : string) m => multiplierOK m = true) multipliers.
Proof. table_scan. Qed.

Lemma multiplier_plain destination :
  inherited destination = false ->
  exists m, getDestinationMultiplier destination = VNum (Num m)
            /\ 0.5 <= m /\ m <= 1.4
            /\ (multipliers !! destination = None -> m = 1.0).
Proof.
  intros Hd. unfold getDestinationMultiplier, get.
  destruct (multipliers !! destination) as [m|] eqn:E.
  - pose proof (map_Forall_lookup_1 _ _ _ _ multipliers_range E) as H.
    unfold multiplierOK in H.
    apply andb_true_iff in H as [H H3]. apply andb_true_iff in H as [H1 H2].
    apply Qle_bool_iff in H1, H2. apply negb_true_iff in H3.
    exists m. cbn. rewrite H3. repeat split; try assumption. discriminate.
  - rewrite Hd. cbn. exists 1.0. repeat split; lra.
Qed.

Lemma activities_four : map_Forall (fun (_ : string) l => length l = 4%nat) activities.
Proof. table_scan. Qed.

Lemma activities_default : exists l, activities !! "default" = Some l.
Proof. eexists. vm_compute. reflexivity. Qed.

Lemma activity_list interests :
  (exists l, orElse (get activities (firstInterest interests)) (get activities "default") = Own l
             /\ length l = 4%nat)
  \/ (orElse (get activities (firstInterest interests)) (get activities "default")
        = Inherited (firstInterest interests)
      /\ inherited (firstInterest interests) = true).
Proof.
  destruct (get_cases activities (firstInterest interests))
    as [(l & E & ->) | [(E & Ei & ->) | (E & Ei & ->)]].
  - left. exists l. split; [reflexivity |]. exact (map_Forall_lookup_1 _ _ _ _ activities_four E).
  - right. split; [reflexivity | assumption].
  - left. cbn [orElse]. destruct activities_default as [l Hl].
    rewrite (get_own _ _ _ Hl). exists l.
    split; [reflexivity |]. exact (map_Forall_lookup_1 _ _ _ _ activities_four Hl).
Qed.

(** *** What each producer returns on a stream of draws *)

Lemma mockHotelAPI_run destination checkIn checkOut guests roomType s :
  run (mockHotelAPI destination checkIn checkOut guests roomType) s =
  match orElse (get hotelTypes roomType) (get hotelTypes "standard") with
  | Own hotel =>
      Ok {| pricePerNight :=
              hotelPrice (hotelBasePrice hotel) (hotelVariation (Num (s 0%nat)))
                         (getDestinationMultiplier destination);
            hotelName := name hotel;
            hotelRating := rating hotel;
            hotelAmenities := amenities hotel;
            hotelAvailability := gt (Num (s 1%nat)) (Num 0.15);
            cancellation := negb (String.eqb roomType "budget");
            breakfast := existsb (String.eqb "Breakfast") (amenities hotel);
            wifi := true;
            location := "City Center" |}
  | _ => Throw
  end.
Proof.
  unfold run, mockHotelAPI, bind, Math_random, ret.
  destruct (orElse _ _); reflexivity.
Qed.

Lemma mockActivityAPI_run destination duration travelers interests s :
  run (mockActivityAPI destination duration travelers interests) s =
  match orElse (get activities (firstInterest interests)) (get activities "default") with
  | Own availableActivities =>
      Ok {| averagePrice := Math_round (add (Num 25) (mul (Num (s 0%nat)) (Num 75)));
            recommendedActivities :=
              slice0 availableActivities (Math_min duration (Num 4));
            totalActivities := Math_min (mul duration (Num 2)) (Num 10);
            bookingRequired := gt (Num (s 1%nat)) (Num 0.3);
            groupDiscount := gt travelers (Num 4);
            cancellationPolicy := "24 hours free cancellation" |}
  | _ => Throw
  end.
Proof.
  unfold run, mockActivityAPI, bind, Math_random, ret.
  destruct (orElse _ _); reflexivity.
Qed.

Section FlightRun.

Variable Date_getMonth : string -> number.
Variable hostBasePrice : string -> string -> result number.

Lemma mockFlightAPI_run origin destination departDate returnDate passengers s :
  run (mockFlightAPI Date_getMonth hostBasePrice origin destination departDate
                     returnDate passengers) s =
  let lowerOrigin := toLowerCase (trim origin) in
  let lowerDestination := toLowerCase (trim destination) in
  let isDomestic :=
    existsb (fun city => String.eqb (toLowerCase city) lowerOrigin) indianCities
    && existsb (fun city => String.eqb (toLowerCase city) lowerDestination) indianCities in
  let flightDetails :=
    run (getFlightDetails lowerOrigin lowerDestination isDomestic) (fun n => s (S n)) in
  match basePrice hostBasePrice lowerOrigin lowerDestination with
  | Ok base =>
      Ok {| price := flightPrice base (flightVariation (Num (s 0%nat)))
                       (getSeasonalMultiplier (Date_getMonth departDate));
            airline := pick (if isDomestic then domesticAirlines else internationalAirlines)
                            (Num (s 3%nat));
            duration := fd_duration flightDetails;
            stops := fd_stops flightDetails;
            flightAvailability := gt (Num (s 4%nat)) (Num 0.2);
            bookingClass := pick bookingClasses (Num (s 5%nat));
            baggage := "20kg included";
            refundable := gt (Num (s 6%nat)) (Num 0.5) |}
  | Throw => Throw
  end.
Proof.
  unfold run, mockFlightAPI.
  destruct (basePrice _ _ _); reflexivity.
Qed.

End FlightRun.

Lemma getFlightDetails_run origin destination isDomestic s :
  run (getFlightDetails origin destination isDomestic) s =
  let resolved := jitter (toNumber (baseDuration origin destination isDomestic)) (Num (s 0%nat)) in
  {| fd_duration := formatDuration resolved;
     fd_stops := stopsFor isDomestic resolved (Num (s 1%nat)) |}.
Proof. reflexivity. Qed.

(** *** Slicing the activity list *)

Lemma toInteger_ge_1 x : 1 <= x -> (1 <= toInteger (Num x))%Z.
Proof.
  intros H. unfold toInteger.
  assert (E : Qle_bool 0 x = true) by (apply Qle_bool_iff; lra).
  rewrite E. change 1%Z with (Qfloor 1). now apply Qfloor_resp_le.
Qed.

Lemma min_four_ge_1 d :
  1 <= d -> exists x, Math_min (Num d) (Num 4) = Num x /\ 1 <= x.
Proof.
  intros H. unfold Math_min. destruct (Qle_bool d 4); eexists; split; try reflexivity; lra.
Qed.

Lemma slice0_nonempty {A : Type} (l : list A) x :
  l <> [] -> 1 <= x -> slice0 l (Num x) <> [].
Proof.
  intros Hl Hx. unfold slice0. pose proof (toInteger_ge_1 x Hx) as Hk.
  destruct (Z.ltb_spec (toInteger (Num x)) 0); [lia |].
  destruct l as [|a l]; [congruence |].
  destruct (Z.to_nat (toInteger (Num x))) eqn:E; [lia | discriminate].
Qed.

(** *** Quotes *)

Lemma halves_unit : unit_draws halves.
Proof. intros n. split; unfold halves, Qle, Qlt; cbn; lia. Defined.

(** C1, as stated, fails: a stay of zero days gets an activity quote whose
    list of recommended activities is empty. *)
Lemma C1_zero_duration_empty_labels :
  exists q, run (mockActivityAPI "Goa" (Int 0) (Int 2) []) halves = Ok q
            /\ recommendedActivities q = []
            /\ ~ activityQuoteOK q.
Proof.
  eexists. split; [vm_compute; reflexivity |].
  split; [reflexivity |]. intros [_ H]. apply H. reflexivity.
Qed.

(** C1 (amended): every quote has a strictly positive price and non-empty
    labels -- for a flight whose trimmed, lower-cased origin and destination
    do not name a property of [Object.prototype], for a hotel whose
    destination does not, and for activities over a duration of at least 1.
    The flight producer then always returns; the other two raise only when
    the room type, or the first interest, names an inherited property. *)
Theorem C1_quotes_positive_and_labelled
    Date_getMonth hostBasePrice origin destination departDate returnDate passengers
    hotelDestination checkIn checkOut guests roomType
    activityDestination (days : Q) travelers interests s :
  unit_draws s ->
  inherited (toLowerCase (trim origin)) = false ->
  inherited (toLowerCase (trim destination)) = false ->
  inherited hotelDestination = false ->
  1 <= days ->
  match run (mockFlightAPI Date_getMonth hostBasePrice origin destination
                           departDate returnDate passengers) s with
  | Ok q => flightQuoteOK q
  | Throw => False
  end
  /\ match run (mockHotelAPI hotelDestination checkIn checkOut guests roomType) s with
     | Ok q => hotelQuoteOK q
     | Throw => inherited roomType = true
     end
  /\ match run (mockActivityAPI activityDestination (Num days) travelers interests) s with
     | Ok q => activityQuoteOK q
     | Throw => inherited (firstInterest interests) = true
     end.
Proof.
  intros Hs Ho Hd Hh Hdays.
  destruct (Hs 0%nat) as [H0 H1].
  split; [| split].
  - rewrite mockFlightAPI_run. cbv zeta.
    destruct (basePrice_plain hostBasePrice _ _ Ho Hd) as (b & -> & Hb).
    split; cbn [price airline].
    + unfold flightPrice.
      destruct (seasonal_cases (Date_getMonth departDate)) as [-> | ->];
        cbn [flightVariation mul add sub Math_round];
        apply isPositive_Int, roundQ_pos; nra.
    + destruct (Hs 3%nat) as [H30 H31].
      match goal with |- context [pick ?l _] =>
        destruct (pick_unit l (s 3%nat)) as (a & Ha & Hin);
          [destruct (_ && _); discriminate | assumption | assumption |];
          exists a; split; [exact Ha |];
          apply (nonempty_members l a Hin); destruct (_ && _); reflexivity
      end.
  - rewrite mockHotelAPI_run.
    destruct (hotel_tier roomType) as [(h & -> & Hh') | [-> Hi]]; [| exact Hi].
    unfold tierOK in Hh'. reflect_checks Hh'. destruct Hh' as [[[Hlo Hhi] Hname] Ham].
    destruct (multiplier_plain hotelDestination Hh) as (m & Hm & Hm1 & Hm2 & _).
    split; [| split]; cbn [pricePerNight hotelName hotelAmenities].
    + unfold hotelPrice. rewrite Hm.
      cbn [hotelVariation toNumber mul add sub Math_round].
      apply isPositive_Int, roundQ_pos.
      apply Qle_trans with (60 * 0.85 * 0.5); [lra |].
      apply product_lower; lra.
    + intros E. rewrite E in Hname. discriminate.
    + intros E. rewrite E in Ham. discriminate.
  - rewrite mockActivityAPI_run.
    destruct (activity_list interests) as [(l & -> & Hl) | [-> Hi]]; [| exact Hi].
    split; cbn [averagePrice recommendedActivities].
    + cbn [mul add Math_round]. apply isPositive_Int, roundQ_pos. nra.
    + destruct (min_four_ge_1 days Hdays) as (x & -> & Hx).
      apply slice0_nonempty; [| exact Hx]. destruct l; [discriminate | congruence].
Qed.

Lemma C1_quotes_positive_and_labelled_witness :
  unit_draws halves
  /\ inherited (toLowerCase (trim " Mumbai")) = false
  /\ inherited (toLowerCase (trim "Delhi ")) = false
  /\ inherited "Tokyo" = false
  /\ 1 <= 3
  /\ match run (mockFlightAPI july bareHost " Mumbai" "Delhi " "2024-07-01"
                              "2024-07-09" (Int 2)) halves with
     | Ok q => flightQuoteOK q
     | Throw => False
     end
  /\ match run (mockHotelAPI "Tokyo" "2024-07-01" "2024-07-09" (Int 2) "luxury") halves with
     | Ok q => hotelQuoteOK q
     | Throw => inherited "luxury" = true
     end
  /\ match run (mockActivityAPI "Tokyo" (Num 3) (Int 5) ["food"]) halves with
     | Ok q => activityQuoteOK q
     | Throw => inherited (firstInterest ["food"]) = true
     end.
Proof.
  split; [exact halves_unit |].
  split; [reflexivity |]. split; [reflexivity |]. split; [reflexivity |].
  split; [unfold Qle; cbn; lia |].
  apply (C1_quotes_positive_and_labelled july bareHost " Mumbai" "Delhi " "2024-07-01"
           "2024-07-09" (Int 2) "Tokyo" "2024-07-01" "2024-07-09" (Int 2) "luxury"
           "Tokyo" 3 (Int 5) ["food"] halves);
    [exact halves_unit | reflexivity | reflexivity | reflexivity | unfold Qle; cbn; lia].
Defined.

Lemma roundQ_nearest x : nearest (roundQ x) x.
Proof.
  unfold nearest, roundQ.
  pose proof (Qfloor_le (x + (1 # 2))) as H0. pose proof (Qlt_floor (x + (1 # 2))) as H1.
  rewrite inject_Z_plus in H1. change (inject_Z 1) with 1 in H1.
  pose proof (Qabs_nonneg x) as Hx.
  set (f := inject_Z (Qfloor (x + (1 # 2)))) in *. clearbody f.
  apply Qle_trans with (1 # 2); [| nra].
  apply Qabs_Qle_condition. split; lra.
Qed.

(** C2: the flight price is the whole number nearest to
    [base * (1 + v) * seasonalMultiplier], with [v = r * 0.5 - 0.25] for the
    first draw [r], so [v] ranges over the symmetric band of width 0.25
    around 0; the price per night of a hotel is the whole number nearest to
    [base * (1 + w) * destinationMultiplier], with [w = r * 0.3 - 0.15], in
    the band of width 0.15.  Nothing else enters either price; when the base
    or the multiplier is not a number the price is [NaN].  Both variations
    are affine in a uniform draw, and each value of the band comes from a
    draw. *)
Theorem C2_price_formula
    Date_getMonth hostBasePrice origin destination departDate returnDate passengers
    hotelDestination checkIn checkOut guests roomType s :
  unit_draws s ->
  let v := s 0%nat * 0.5 - 0.25 in
  let w := s 0%nat * 0.3 - 0.15 in
  (- 0.25 <= v /\ v < 0.25
   /\ match run (mockFlightAPI Date_getMonth hostBasePrice origin destination
                               departDate returnDate passengers) s with
      | Ok q =>
          exists base,
            basePrice hostBasePrice (toLowerCase (trim origin))
                      (toLowerCase (trim destination)) = Ok base
            /\ match base, getSeasonalMultiplier (Date_getMonth departDate) with
               | Num b, Num m => exists z, price q = Int z /\ nearest z (b * (1 + v) * m)
               | _, _ => price q = NaN
               end
      | Throw =>
          basePrice hostBasePrice (toLowerCase (trim origin))
                    (toLowerCase (trim destination)) = Throw
      end)
  /\ (- 0.15 <= w /\ w < 0.15
      /\ match run (mockHotelAPI hotelDestination checkIn checkOut guests roomType) s with
         | Ok q =>
             exists hotel,
               orElse (get hotelTypes roomType) (get hotelTypes "standard") = Own hotel
               /\ match toNumber (getDestinationMultiplier hotelDestination) with
                  | Num m =>
                      exists z, pricePerNight q = Int z
                                /\ nearest z (hotelBasePrice hotel * (1 + w) * m)
                  | NaN => pricePerNight q = NaN
                  end
         | Throw => inherited roomType = true
         end)
  /\ (forall x, - 0.25 <= x -> x < 0.25 ->
        exists r, 0 <= r /\ r < 1 /\ r * 0.5 - 0.25 == x)
  /\ (forall x, - 0.15 <= x -> x < 0.15 ->
        exists r, 0 <= r /\ r < 1 /\ r * 0.3 - 0.15 == x).
Proof.
  intros Hs v w. destruct (Hs 0%nat) as [H0 H1].
  split; [| split; [| split]].
  - split; [unfold v; lra |]. split; [unfold v; lra |].
    rewrite mockFlightAPI_run. cbv zeta.
    destruct (basePrice _ _ _) as [base|]; [| reflexivity].
    exists base. split; [reflexivity |]. cbn [price]. unfold flightPrice.
    destruct base as [|b]; [reflexivity |].
    destruct (seasonal_cases (Date_getMonth departDate)) as [-> | ->];
      cbn [flightVariation mul add sub Math_round];
      (eexists; split; [reflexivity | apply roundQ_nearest]).
  - split; [unfold w; lra |]. split; [unfold w; lra |].
    rewrite mockHotelAPI_run.
    destruct (hotel_tier roomType) as [(h & -> & _) | [-> Hi]]; [| exact Hi].
    exists h. split; [reflexivity |]. cbn [pricePerNight]. unfold hotelPrice.
    destruct (toNumber (getDestinationMultiplier hotelDestination)) as [|m];
      [reflexivity |].
    cbn [hotelVariation mul add sub Math_round].
    eexists. split; [reflexivity | apply roundQ_nearest].
  - intros x Hx0 Hx1. exists ((x + 0.25) * 2). repeat split; lra.
  - intros x Hx0 Hx1. exists ((x + 0.15) * (10 # 3)). repeat split; lra.
Qed.

Lemma C2_price_formula_witness :
  unit_draws halves
  /\ let v := halves 0%nat * 0.5 - 0.25 in
     let w := halves 0%nat * 0.3 - 0.15 in
     (- 0.25 <= v /\ v < 0.25
      /\ match run (mockFlightAPI july bareHost "London" " paris" "2024-07-01"
                                  "2024-07-09" (Int 2)) halves with
         | Ok q =>
             exists base,
               basePrice bareHost (toLowerCase (trim "London"))
                         (toLowerCase (trim " paris")) = Ok base
               /\ match base, getSeasonalMultiplier (july "2024-07-01") with
                  | Num b, Num m =>
                      exists z, price q = Int z /\ nearest z (b * (1 + v) * m)
                  | _, _ => price q = NaN
                  end
         | Throw =>
             basePrice bareHost (toLowerCase (trim "London"))
                       (toLowerCase (trim " paris")) = Throw
         end)
     /\ (- 0.15 <= w /\ w < 0.15
         /\ match run (mockHotelAPI "Paris" "2024-07-01" "2024-07-09" (Int 2) "budget")
                      halves with
            | Ok q =>
                exists hotel,
                  orElse (get hotelTypes "budget") (get hotelTypes "standard") = Own hotel
                  /\ match toNumber (getDestinationMultiplier "Paris") with
                     | Num m =>
                         exists z, pricePerNight q = Int z
                                   /\ nearest z (hotelBasePrice hotel * (1 + w) * m)
                     | NaN => pricePerNight q = NaN
                     end
            | Throw => inherited "budget" = true
            end)
     /\ (forall x, - 0.25 <= x -> x < 0.25 ->
           exists r, 0 <= r /\ r < 1 /\ r * 0.5 - 0.25 == x)
     /\ (forall x, - 0.15 <= x -> x < 0.15 ->
           exists r, 0 <= r /\ r < 1 /\ r * 0.3 - 0.15 == x).
Proof.
  split; [exact halves_unit |].
  exact (C2_price_formula july bareHost "London" " paris" "2024-07-01" "2024-07-09"
           (Int 2) "Paris" "2024-07-01" "2024-07-09" (Int 2) "budget" halves halves_unit).
Defined.

Example flight_price_london_paris :
  price <$> (match run (mockFlightAPI july bareHost "London" " paris" "2024-07-01"
                                      "2024-07-09" (Int 2)) halves with
             | Ok q => Some q
             | Throw => None
             end) = Some (Int 195).
Proof. vm_compute. reflexivity. Qed.

Example hotel_price_paris_budget :
  pricePerNight <$> (match run (mockHotelAPI "Paris" "2024-07-01" "2024-07-09" (Int 2)
                                             "budget") halves with
                     | Ok q => Some q
                     | Throw => None
                     end) = Some (Int 78).
Proof. vm_compute. reflexivity. Qed.

(** *** Route keys and durations *)

Lemma hasDash_routeKey a b : hasDash (a +:+ "-" +:+ b) = true.
Proof.
  change (hasDash (a +:+ String "-"%char b) = true).
  induction a as [|c a IH].
  - reflexivity.
  - change (String c a +:+ String "-"%char b) with (String c (a +:+ String "-"%char b)).
    cbn [hasDash]. rewrite IH. apply orb_true_r.
Qed.

Lemma inherited_no_dash k : inherited k = true -> hasDash k = false.
Proof.
  unfold inherited. rewrite existsb_exists. intros (x & Hin & Heq).
  apply String.eqb_eq in Heq. subst x.
  unfold objectPrototype in Hin. cbn [In] in Hin.
  repeat (destruct Hin as [<- | Hin]; [reflexivity |]). destruct Hin.
Qed.

Lemma routeKey_not_inherited a b : inherited (a +:+ "-" +:+ b) = false.
Proof.
  destruct (inherited (a +:+ "-" +:+ b)) eqn:E; [| reflexivity].
  apply inherited_no_dash in E. rewrite hasDash_routeKey in E. discriminate.
Qed.

Lemma domesticDurations_range :
  map_Forall (fun (_ : string) q => durationOK q = true) domesticDurations.
Proof. table_scan. Qed.

Lemma internationalDurations_range :
  map_Forall (fun (_ : string) q => durationOK q = true) internationalDurations.
Proof. table_scan. Qed.

Lemma orNum_duration (t : gmap string Q) a b (rest : value) :
  map_Forall (fun (_ : string) q => durationOK q = true) t ->
  (exists q, rest = VNum (Num q) /\ 1 <= q /\ q <= 15) ->
  exists q, orNum (get t (a +:+ "-" +:+ b)) rest = VNum (Num q) /\ 1 <= q /\ q <= 15.
Proof.
  intros Ht Hrest.
  destruct (get_cases t (a +:+ "-" +:+ b)) as [(q & E & ->) | [(E & Ei & ->) | (E & Ei & ->)]].
  - pose proof (map_Forall_lookup_1 _ _ _ _ Ht E) as H. unfold durationOK in H.
    reflect_checks H. destruct H as [[H1 H2] H3].
    exists q. cbn. rewrite H3. easy.
  - rewrite routeKey_not_inherited in Ei. discriminate.
  - exact Hrest.
Qed.

(** The duration found for a route is always a number of hours between 1
    and 15: a route key never reaches [Object.prototype]. *)
Lemma baseDuration_number origin destination isDomestic :
  exists q, baseDuration origin destination isDomestic = VNum (Num q)
            /\ 1 <= q /\ q <= 15.
Proof.
  unfold baseDuration. destruct isDomestic.
  - apply orNum_duration; [exact domesticDurations_range |].
    apply orNum_duration; [exact domesticDurations_range |].
    exists 2.0. repeat split; lra.
  - apply orNum_duration; [exact internationalDurations_range |].
    apply orNum_duration; [exact internationalDurations_range |].
    exists 8.0. repeat split; lra.
Qed.

(** *** The stop policy of international flights, draw by draw *)

Lemma stops_short d r :
  d < 5 -> ((1 <= stopsFor false (Num d) (Num r))%Z <-> r <= 0.7).
Proof.
  intros Hd. unfold stopsFor.
  assert (E : lt (Num d) (Num 5) = true) by now apply lt_Num.
  rewrite E. destruct (gt (Num r) (Num 0.7)) eqn:G.
  - apply gt_Num in G. split; [lia | lra].
  - apply lt_Num_false in G. split; [easy | lia].
Qed.

Lemma stops_medium d r :
  5 <= d -> d < 10 -> ((1 <= stopsFor false (Num d) (Num r))%Z <-> 0.5 < r).
Proof.
  intros Hd5 Hd10. unfold stopsFor.
  assert (E5 : lt (Num d) (Num 5) = false) by now apply lt_Num_false.
  assert (E10 : lt (Num d) (Num 10) = true) by now apply lt_Num.
  rewrite E5, E10. destruct (gt (Num r) (Num 0.5)) eqn:G.
  - apply gt_Num in G. split; [easy | lia].
  - apply lt_Num_false in G. split; [lia | lra].
Qed.

Lemma stops_long d r :
  10 <= d -> stopsFor false (Num d) r = 1%Z \/ stopsFor false (Num d) r = 2%Z.
Proof.
  intros Hd. unfold stopsFor.
  assert (E5 : lt (Num d) (Num 5) = false) by (apply lt_Num_false; lra).
  assert (E10 : lt (Num d) (Num 10) = false) by now apply lt_Num_false.
  rewrite E5, E10. destruct (gt r (Num 0.3)); [left | right]; reflexivity.
Qed.

(** C3 (the code departs from it): on a grid of 1000 draws, the short route
    London-Paris (1.5h) gets a stop for 701 draws, the medium route
    London-New York (8h) for only 499, the long route Mumbai-New York (15h)
    for all 1000.  The likelihood of a stop drops between the first two
    buckets instead of growing. *)
Theorem C3_stop_likelihood_by_bucket :
  stopFrequency 1000%positive "london" "paris" = 701%nat
  /\ stopFrequency 1000%positive "london" "new york" = 499%nat
  /\ stopFrequency 1000%positive "mumbai" "new york" = 1000%nat.
Proof. vm_compute. repeat split. Qed.

(** C4: an international flight whose duration after the jitter is at least
    10 hours has one or two stops, whatever the draws. *)
Theorem C4_long_haul_has_stops origin destination s d :
  jitter (toNumber (baseDuration origin destination false)) (Num (s 0%nat)) = Num d ->
  10 <= d ->
  let stops := fd_stops (run (getFlightDetails origin destination false) s) in
  stops = 1%Z \/ stops = 2%Z.
Proof.
  intros Hres Hd. rewrite getFlightDetails_run. cbn [fd_stops]. rewrite Hres.
  now apply stops_long.
Qed.

Lemma C4_long_haul_has_stops_witness :
  jitter (toNumber (baseDuration "mumbai" "new york" false)) (Num (halves 0%nat))
    = Num (15.0 + ((1 # 2) - 0.5) * 0.5)
  /\ 10 <= 15.0 + ((1 # 2) - 0.5) * 0.5
  /\ let stops := fd_stops (run (getFlightDetails "mumbai" "new york" false) halves) in
     stops = 1%Z \/ stops = 2%Z.
Proof.
  assert (H : jitter (toNumber (baseDuration "mumbai" "new york" false))
                (Num (halves 0%nat)) = Num (15.0 + ((1 # 2) - 0.5) * 0.5))
    by (vm_compute; reflexivity).
  assert (H10 : 10 <= 15.0 + ((1 # 2) - 0.5) * 0.5) by (unfold Qle; cbn; lia).
  split; [exact H |]. split; [exact H10 |].
  exact (C4_long_haul_has_stops "mumbai" "new york" halves _ H H10).
Defined.

(** *** Exchange rates *)

Lemma mockRates_USD : get mockRates "USD" = Own usdRates.
Proof. vm_compute. reflexivity. Qed.

Lemma mockRates_unknown baseCurrency :
  ~ In baseCurrency ["USD"; "EUR"; "GBP"; "INR"] -> mockRates !! baseCurrency = None.
Proof.
  intros H. apply not_elem_of_list_to_map_1. cbn. intros Hin.
  apply H. apply list_elem_of_In. exact Hin.
Qed.

(** The [try] block never raises, so the [{ USD: 1 }] fallback of the
    [catch] is never what the function returns through an exception. *)
Lemma getExchangeRates_never_raises baseCurrency :
  exists r, getExchangeRates_try baseCurrency = Ok r /\ getExchangeRates baseCurrency = r.
Proof. eexists. split; reflexivity. Qed.

(** An unknown base currency that does not name an inherited property gets
    the USD table. *)
Lemma getExchangeRates_unknown_plain baseCurrency :
  ~ In baseCurrency ["USD"; "EUR"; "GBP"; "INR"] ->
  inherited baseCurrency = false ->
  getExchangeRates baseCurrency = Own usdRates.
Proof.
  intros Hk Hi. unfold getExchangeRates, getExchangeRates_try.
  rewrite mockRates_USD. unfold get. rewrite (mockRates_unknown _ Hk), Hi. reflexivity.
Qed.

(** C5 (the code departs from it): the base currency ["constructor"] is not
    a known key, yet the lookup finds the property of that name inherited
    from [Object.prototype]; being truthy it is returned as it is, and the
    USD table is not. *)
Theorem C5_inherited_name_is_not_usd :
  ~ In "constructor" ["USD"; "EUR"; "GBP"; "INR"]
  /\ getExchangeRates_try "constructor" = Ok (Inherited "constructor")
  /\ getExchangeRates "constructor" = Inherited "constructor"
  /\ getExchangeRates "constructor" <> Own usdRates.
Proof.
  split.
  - cbn. intros [H | [H | [H | [H | []]]]]; discriminate H.
  - split; [reflexivity |]. split; [reflexivity |]. discriminate.
Qed.

(** *** Destination multipliers *)

(** A destination that is neither a key of the table nor an inherited
    name has multiplier 1.0: the lower-case spellings, for instance. *)
Lemma multiplier_unlisted destination :
  multipliers !! destination = None -> inherited destination = false ->
  getDestinationMultiplier destination = VNum (Num 1.0).
Proof.
  intros Hm Hi. unfold getDestinationMultiplier, get. rewrite Hm, Hi. reflexivity.
Qed.

Example multiplier_lowercase :
  getDestinationMultiplier "delhi" = VNum (Num 1.0)
  /\ getDestinationMultiplier "tokyo" = VNum (Num 1.0)
  /\ getDestinationMultiplier "Delhi" = VNum (Num 0.5).
Proof. repeat split; vm_compute; reflexivity. Qed.

(** C9 (the code departs from it): ["constructor"] is none of the
    capitalised keys, yet its multiplier is not 1.0 but the property
    inherited from [Object.prototype]; the product is then [NaN], and so is
    the price per night. *)
Theorem C9_inherited_name_multiplier :
  multipliers !! "constructor" = None
  /\ getDestinationMultiplier "constructor" = VHost "constructor"
  /\ exists q,
       run (mockHotelAPI "constructor" "2024-07-01" "2024-07-09" (Int 2) "standard")
           halves = Ok q
       /\ pricePerNight q = NaN.
Proof.
  split; [vm_compute; reflexivity |]. split; [vm_compute; reflexivity |].
  eexists. split; [vm_compute; reflexivity | reflexivity].
Qed.

(** *** The band of hotel prices *)

(** C6, as stated, fails: in Tokyo a standard room with no variation costs
    168 a night, above 138, the upper end of the band around the tier's
    base rate of 120. *)
Lemma C6_tokyo_outside_tier_band :
  exists q,
    run (mockHotelAPI "Tokyo" "2024-07-01" "2024-07-09" (Int 2) "standard") halves = Ok q
    /\ pricePerNight q = Int 168
    /\ roundQ (1.15 * 120) = 138%Z
    /\ (138 < 168)%Z.
Proof.
  eexists. split; [vm_compute; reflexivity |].
  split; [reflexivity |]. split; [reflexivity | lia].
Qed.

(** C6 (amended): for a destination that does not name an inherited
    property, two calls with the same inputs both give a price per night
    between [round(0.85 * base * m)] and [round(1.15 * base * m)], where
    [base] is the base rate of the tier and [m] the multiplier of the
    destination; [m] is 1.0 for a destination that is not in the table. *)
Theorem C6_hotel_price_band destination checkIn checkOut guests roomType s1 s2 :
  unit_draws s1 -> unit_draws s2 ->
  inherited destination = false ->
  match run (mockHotelAPI destination checkIn checkOut guests roomType) s1,
        run (mockHotelAPI destination checkIn checkOut guests roomType) s2 with
  | Ok q1, Ok q2 =>
      exists hotel m z1 z2,
        orElse (get hotelTypes roomType) (get hotelTypes "standard") = Own hotel
        /\ getDestinationMultiplier destination = VNum (Num m)
        /\ (multipliers !! destination = None -> m = 1.0)
        /\ pricePerNight q1 = Int z1 /\ pricePerNight q2 = Int z2
        /\ (roundQ (0.85 * hotelBasePrice hotel * m) <= z1
            <= roundQ (1.15 * hotelBasePrice hotel * m))%Z
        /\ (roundQ (0.85 * hotelBasePrice hotel * m) <= z2
            <= roundQ (1.15 * hotelBasePrice hotel * m))%Z
  | Throw, Throw => inherited roomType = true
  | _, _ => False
  end.
Proof.
  intros Hs1 Hs2 Hd. rewrite !mockHotelAPI_run.
  destruct (hotel_tier roomType) as [(h & -> & Hh) | [-> Hi]]; [| exact Hi].
  unfold tierOK in Hh. reflect_checks Hh. destruct Hh as [[[Hlo Hhi] _] _].
  destruct (multiplier_plain destination Hd) as (m & Hm & Hm1 & Hm2 & Hm3).
  assert (Hband : forall r, 0 <= r -> r < 1 ->
            (roundQ (0.85 * hotelBasePrice h * m)
             <= roundQ (hotelBasePrice h * (1 + (r * 0.3 - 0.15)) * m)
             <= roundQ (1.15 * hotelBasePrice h * m))%Z).
  { intros r H0 H1. split; apply roundQ_le.
    - assert (E : 0.85 * hotelBasePrice h * m == hotelBasePrice h * 0.85 * m) by ring.
      rewrite E. apply product_lower; lra.
    - assert (E : 1.15 * hotelBasePrice h * m == hotelBasePrice h * 1.15 * m) by ring.
      rewrite E. apply product_upper; lra. }
  exists h, m. do 2 eexists.
  split; [reflexivity |]. split; [exact Hm |]. split; [exact Hm3 |].
  cbn [pricePerNight]. unfold hotelPrice. rewrite Hm.
  cbn [hotelVariation toNumber mul add sub Math_round].
  split; [reflexivity |]. split; [reflexivity |].
  destruct (Hs1 0%nat), (Hs2 0%nat). split; apply Hband; assumption.
Qed.

Lemma C6_hotel_price_band_witness :
  unit_draws halves /\ unit_draws (stopDraws (1 # 10))
  /\ inherited "delhi" = false
  /\ match run (mockHotelAPI "delhi" "2024-07-01" "2024-07-09" (Int 2) "luxury") halves,
           run (mockHotelAPI "delhi" "2024-07-01" "2024-07-09" (Int 2) "luxury")
               (stopDraws (1 # 10)) with
     | Ok q1, Ok q2 =>
         exists hotel m z1 z2,
           orElse (get hotelTypes "luxury") (get hotelTypes "standard") = Own hotel
           /\ getDestinationMultiplier "delhi" = VNum (Num m)
           /\ (multipliers !! "delhi" = None -> m = 1.0)
           /\ pricePerNight q1 = Int z1 /\ pricePerNight q2 = Int z2
           /\ (roundQ (0.85 * hotelBasePrice hotel * m) <= z1
               <= roundQ (1.15 * hotelBasePrice hotel * m))%Z
           /\ (roundQ (0.85 * hotelBasePrice hotel * m) <= z2
               <= roundQ (1.15 * hotelBasePrice hotel * m))%Z
     | Throw, Throw => inherited "luxury" = true
     | _, _ => False
     end.
Proof.
  assert (H2 : unit_draws (stopDraws (1 # 10))).
  { intros [|n]; split; unfold stopDraws, Qle, Qlt; cbn; lia. }
  split; [exact halves_unit |]. split; [exact H2 |]. split; [reflexivity |].
  exact (C6_hotel_price_band "delhi" "2024-07-01" "2024-07-09" (Int 2) "luxury" halves
           (stopDraws (1 # 10)) halves_unit H2 eq_refl).
Defined.

(** *** Flight fares in the two directions *)

Lemma routes_return_fares :
  map_Forall (fun o inner => map_Forall (fun d p => returnFareAgrees o d p = true) inner)
             routes.
Proof. table_scan. Qed.

Lemma fare_both_directions o d p q :
  fare o d = Some p -> fare d o = Some q -> p == q.
Proof.
  unfold fare at 1. destruct (routes !! o) as [inner|] eqn:Ho; [| discriminate].
  intros Hd Hrev.
  pose proof (map_Forall_lookup_1 _ _ _ _ (map_Forall_lookup_1 _ _ _ _ routes_return_fares Ho) Hd)
    as H.
  unfold returnFareAgrees in H. rewrite Hrev in H. now apply Qeq_bool_iff.
Qed.

(** C7, as stated, fails: Kolkata to Singapore is listed at 300, the
    opposite direction is not listed and is priced at the default 500; the
    fare of the reverse key is not consulted. *)
Lemma C7_kolkata_singapore_asymmetric :
  basePrice bareHost (toLowerCase (trim "Kolkata")) (toLowerCase (trim "Singapore"))
    = Ok (Num 300)
  /\ basePrice bareHost (toLowerCase (trim "Singapore")) (toLowerCase (trim "Kolkata"))
     = Ok (Num 500)
  /\ fare "kolkata" "singapore" = Some 300
  /\ ~ 300 == 500.
Proof.
  split; [vm_compute; reflexivity |]. split; [vm_compute; reflexivity |].
  split; [vm_compute; reflexivity |]. intros H. discriminate H.
Qed.

(** C7 (amended): for an origin and a destination that, trimmed and
    lower-cased, do not name an inherited property, the base price is the
    fare listed for the forward direction, or 500 when that direction is not
    listed; the reverse direction is not consulted.  Where the table lists a
    route in both directions the two fares are equal. *)
Theorem C7_forward_fare_or_default hostBasePrice origin destination :
  let o := toLowerCase (trim origin) in
  let d := toLowerCase (trim destination) in
  inherited o = false -> inherited d = false ->
  basePrice hostBasePrice o d
    = Ok (Num (match fare o d with Some p => p | None => 500 end))
  /\ forall p q, fare o d = Some p -> fare d o = Some q -> p == q.
Proof.
  intros o d Ho Hd. split; [| apply fare_both_directions].
  unfold basePrice, fare, get.
  destruct (routes !! o) as [inner|] eqn:Eo.
  - destruct (inner !! d) as [p|] eqn:Ed.
    + destruct (routes_fare _ _ _ _ Eo Ed) as [_ Hz]. cbn. now rewrite Hz.
    + rewrite Hd. reflexivity.
  - rewrite Ho. reflexivity.
Qed.

Lemma C7_forward_fare_or_default_witness :
  inherited (toLowerCase (trim "Mumbai ")) = false
  /\ inherited (toLowerCase (trim " Tokyo")) = false
  /\ basePrice bareHost (toLowerCase (trim "Mumbai ")) (toLowerCase (trim " Tokyo"))
     = Ok (Num (match fare (toLowerCase (trim "Mumbai ")) (toLowerCase (trim " Tokyo")) with
                | Some p => p
                | None => 500
                end))
  /\ forall p q,
       fare (toLowerCase (trim "Mumbai ")) (toLowerCase (trim " Tokyo")) = Some p ->
       fare (toLowerCase (trim " Tokyo")) (toLowerCase (trim "Mumbai ")) = Some q ->
       p == q.
Proof.
  split; [reflexivity |]. split; [reflexivity |].
  exact (C7_forward_fare_or_default bareHost "Mumbai " " Tokyo" eq_refl eq_refl).
Defined.

(** *** Advice in blocks *)

Lemma disjointb_spec A l a : disjointb A l = true -> In a A -> ~ In a l.
Proof.
  unfold disjointb. rewrite forallb_forall. intros H Ha Hl.
  specialize (H a Ha). apply negb_true_iff in H.
  assert (E : existsb (String.eqb a) l = true).
  { apply existsb_exists. exists a. split; [exact Hl | apply String.eqb_refl]. }
  congruence.
Qed.

Lemma precedes_app l1 l2 A B :
  disjointb A l2 = true -> disjointb B l1 = true -> precedes (l1 ++ l2) A B.
Proof.
  intros HA HB i j a b Hi Hj Ha Hb.
  assert (Hi' : (i < length l1)%nat).
  { destruct (Nat.lt_ge_cases i (length l1)) as [H | H]; [exact H |].
    rewrite lookup_app_r in Hi by exact H.
    exfalso. apply (disjointb_spec A l2 a HA Ha).
    apply list_elem_of_In. eapply list_elem_of_lookup_2. exact Hi. }
  assert (Hj' : (length l1 <= j)%nat).
  { destruct (Nat.lt_ge_cases j (length l1)) as [H | H]; [| exact H].
    rewrite lookup_app_l in Hj by exact H.
    exfalso. apply (disjointb_spec B l1 b HB Hb).
    apply list_elem_of_In. eapply list_elem_of_lookup_2. exact Hj. }
  lia.
Qed.

(** C8: for a luxury trip of 10 days in month 6 with 5 travellers the advice
    is the luxury block, then the long-stay block, then the peak-season
    block, then the group block; each block is present, and every string of
    a block comes before every string of the next. *)
Theorem C8_luxury_long_peak_group destination :
  let recommendations :=
    generateRecommendations destination "luxury" (Int 6) (Int 10) (Int 5) in
  recommendations
    = (luxuryAdvice ++ longStayAdvice ++ peakSeasonAdvice ++ groupAdvice)%list
  /\ (exists a, In a luxuryAdvice /\ In a recommendations)
  /\ (exists a, In a longStayAdvice /\ In a recommendations)
  /\ (exists a, In a peakSeasonAdvice /\ In a recommendations)
  /\ (exists a, In a groupAdvice /\ In a recommendations)
  /\ precedes recommendations luxuryAdvice longStayAdvice
  /\ precedes recommendations longStayAdvice peakSeasonAdvice
  /\ precedes recommendations peakSeasonAdvice groupAdvice.
Proof.
  intros recommendations.
  assert (E : recommendations
              = (luxuryAdvice ++ longStayAdvice ++ peakSeasonAdvice ++ groupAdvice)%list)
    by reflexivity.
  split; [exact E |]. rewrite E.
  split; [eexists; split; [left; reflexivity | cbn; tauto] |].
  split; [eexists; split; [left; reflexivity | cbn; tauto] |].
  split; [eexists; split; [left; reflexivity | cbn; tauto] |].
  split; [eexists; split; [left; reflexivity | cbn; tauto] |].
  split; [| split].
  - apply precedes_app; vm_compute; reflexivity.
  - change (luxuryAdvice ++ longStayAdvice ++ peakSeasonAdvice ++ groupAdvice)%list
      with ((luxuryAdvice ++ longStayAdvice) ++ (peakSeasonAdvice ++ groupAdvice))%list.
    apply precedes_app; vm_compute; reflexivity.
  - change (luxuryAdvice ++ longStayAdvice ++ peakSeasonAdvice ++ groupAdvice)%list
      with ((luxuryAdvice ++ longStayAdvice ++ peakSeasonAdvice) ++ groupAdvice)%list.
    apply precedes_app; vm_compute; reflexivity.
Qed.

(** *** Counting activities *)

Lemma toInteger_Int k : (0 <= k)%Z -> toInteger (Int k) = k.
Proof.
  intros Hk. unfold toInteger, Int.
  assert (E : Qle_bool 0 (inject_Z k) = true).
  { apply Qle_bool_iff. change 0 with (inject_Z 0). now rewrite <- Zle_Qle. }
  rewrite E. apply Qfloor_Z.
Qed.

Lemma min_four_Int k : Math_min (Int k) (Num 4) = Int (Z.min k 4).
Proof.
  unfold Math_min, Int. destruct (Qle_bool (inject_Z k) 4) eqn:E.
  - apply Qle_bool_iff in E. change 4 with (inject_Z 4) in E. rewrite <- Zle_Qle in E.
    now rewrite Z.min_l.
  - assert (H : ~ inject_Z k <= 4) by (rewrite <- Qle_bool_iff; congruence).
    change 4 with (inject_Z 4) in H. rewrite <- Zle_Qle in H.
    rewrite Z.min_r by lia. reflexivity.
Qed.

Lemma slice0_length {A : Type} (l : list A) k :
  (0 <= k)%Z -> length (slice0 l (Int k)) = Nat.min (Z.to_nat k) (length l).
Proof.
  intros Hk. unfold slice0. rewrite toInteger_Int by exact Hk.
  destruct (Z.ltb_spec k 0); [lia |]. apply length_firstn.
Qed.

Lemma min_ten_doubled k :
  same (Math_min (mul (Int k) (Num 2)) (Num 10)) (Int (Z.min (2 * k) 10)).
Proof.
  unfold Math_min, mul, Int, same.
  assert (Hd : inject_Z k * 2 == inject_Z (2 * k)).
  { rewrite inject_Z_mult. change (inject_Z 2) with 2. ring. }
  destruct (Qle_bool (inject_Z k * 2) 10) eqn:E.
  - apply Qle_bool_iff in E. rewrite Hd in E.
    change 10 with (inject_Z 10) in E. rewrite <- Zle_Qle in E.
    rewrite Z.min_l by exact E. exact Hd.
  - assert (H : ~ inject_Z k * 2 <= 10) by (rewrite <- Qle_bool_iff; congruence).
    rewrite Hd in H. change 10 with (inject_Z 10) in H. rewrite <- Zle_Qle in H.
    rewrite Z.min_r by lia. reflexivity.
Qed.

(** C10: for a non-negative whole number of days, the activity quote has
    [totalActivities = min(2 * days, 10)] (so at most 10), exactly
    [min(days, 4)] recommended activities, and a group discount exactly when
    there are more than 4 travellers.  No quote is produced only when the
    first interest names an inherited property. *)
Theorem C10_activity_counts destination (days : Z) travelers interests s :
  (0 <= days)%Z ->
  match run (mockActivityAPI destination (Int days) travelers interests) s with
  | Ok q =>
      same (totalActivities q) (Int (Z.min (2 * days) 10))
      /\ lt (Num 10) (totalActivities q) = false
      /\ length (recommendedActivities q) = Z.to_nat (Z.min days 4)
      /\ (groupDiscount q = true <-> exists t, travelers = Num t /\ 4 < t)
  | Throw => inherited (firstInterest interests) = true
  end.
Proof.
  intros Hdays. rewrite mockActivityAPI_run.
  destruct (activity_list interests) as [(l & -> & Hl) | [-> Hi]]; [| exact Hi].
  cbn [totalActivities recommendedActivities groupDiscount].
  pose proof (min_ten_doubled days) as Htotal.
  split; [exact Htotal |]. split; [| split].
  - destruct (Math_min (mul (Int days) (Num 2)) (Num 10)) as [|t] eqn:E;
      [reflexivity |].
    cbn [same Int] in Htotal. apply lt_Num_false. rewrite Htotal.
    change 10 with (inject_Z 10). rewrite <- Zle_Qle. lia.
  - rewrite min_four_Int, slice0_length, Hl by lia. lia.
  - split.
    + intros G. destruct travelers as [|t]; [discriminate G |].
      exists t. split; [reflexivity | now apply gt_Num].
    + intros (t & -> & Ht). now apply gt_Num.
Qed.

Lemma C10_activity_counts_witness :
  (0 <= 3)%Z
  /\ match run (mockActivityAPI "Goa" (Int 3) (Int 5) ["nature"]) halves with
     | Ok q =>
         same (totalActivities q) (Int (Z.min (2 * 3) 10))
         /\ lt (Num 10) (totalActivities q) = false
         /\ length (recommendedActivities q) = Z.to_nat (Z.min 3 4)
         /\ (groupDiscount q = true <-> exists t, Int 5 = Num t /\ 4 < t)
     | Throw => inherited (firstInterest ["nature"]) = true
     end.
Proof.
  split; [lia |].
  apply (C10_activity_counts "Goa" 3 (Int 5) ["nature"] halves). lia.
Defined.

Example activity_quote_goa :
  match run (mockActivityAPI "Goa" (Int 3) (Int 5) ["nature"]) halves with
  | Ok q =>
      recommendedActivities q = ["Nature Walk"; "Wildlife Safari"; "Botanical Garden"]
      /\ groupDiscount q = true
  | Throw => False
  end.
Proof. vm_compute. split; reflexivity. Qed.

(** ** Further properties of the service *)

(** *** Flight details *)

Lemma stopsFor_range isDomestic resolved r :
  (0 <= stopsFor isDomestic resolved r <= (if isDomestic then 1 else 2))%Z.
Proof.
  unfold stopsFor.
  destruct isDomestic; repeat match goal with |- context [if ?b then _ else _] =>
    destruct b end; lia.
Qed.

(** X1: a flight has at most two stops, a domestic one at most one; whatever
    its duration, a domestic flight is direct when the second draw is at
    most 0.8, and has its stop when that draw exceeds 0.8 (a draw within
    [slack] of the threshold may fall on either side of the double that
    stands for 0.8). *)
Theorem X1_stops_range origin destination isDomestic s :
  let stops := fd_stops (run (getFlightDetails origin destination isDomestic) s) in
  let domestic := fd_stops (run (getFlightDetails origin destination true) s) in
  (0 <= stops <= (if isDomestic then 1 else 2))%Z
  /\ (domestic = 0%Z /\ s 1%nat <= 0.8 + slack
      \/ domestic = 1%Z /\ 0.8 < s 1%nat).
Proof.
  rewrite !getFlightDetails_run. cbn [fd_stops]. split.
  - apply stopsFor_range.
  - unfold stopsFor. destruct (gt (Num (s 1%nat)) (Num 0.8)) eqn:G.
    + right. apply gt_Num in G. easy.
    + left. apply lt_Num_false in G. split; [reflexivity |].
      unfold slack. lra.
Qed.

Example domestic_stop_by_second_draw :
  fd_stops (run (getFlightDetails "mumbai" "delhi" true) (stopDraws 0.9)) = 1%Z
  /\ fd_stops (run (getFlightDetails "mumbai" "delhi" true) (stopDraws 0.7)) = 0%Z.
Proof. split; vm_compute; reflexivity. Qed.

Lemma countDash_routeKey a b :
  countDash (a +:+ "-" +:+ b) = (countDash a + 1 + countDash b)%nat.
Proof.
  change (countDash (a +:+ String "-"%char b) = (countDash a + 1 + countDash b)%nat).
  induction a as [|c a IH].
  - reflexivity.
  - change (String c a +:+ String "-"%char b) with (String c (a +:+ String "-"%char b)).
    cbn [countDash]. rewrite IH. lia.
Qed.

Lemma splitDash_routeKey a b :
  countDash a = 0%nat -> splitDash (a +:+ "-" +:+ b) = Some (a, b).
Proof.
  change (countDash a = 0%nat -> splitDash (a +:+ String "-"%char b) = Some (a, b)).
  induction a as [|c a IH]; intros Ha.
  - reflexivity.
  - change (String c a +:+ String "-"%char b) with (String c (a +:+ String "-"%char b)).
    cbn [countDash] in Ha. cbn [splitDash].
    destruct (Ascii.eqb c "-"); [discriminate Ha |]. now rewrite IH.
Qed.

Lemma sameQ_eq p q : sameQ p q = true -> p = q.
Proof.
  unfold sameQ. rewrite andb_true_iff, Z.eqb_eq, Pos.eqb_eq.
  destruct p, q. cbn. intros [-> ->]. reflexivity.
Qed.

Lemma domesticDurations_reverse :
  map_Forall (fun k p => reverseAgrees domesticDurations k p = true) domesticDurations.
Proof. table_scan. Qed.

Lemma internationalDurations_reverse :
  map_Forall (fun k p => reverseAgrees internationalDurations k p = true)
             internationalDurations.
Proof. table_scan. Qed.

Lemma reverse_durations_agree (t : gmap string Q) a b p q :
  map_Forall (fun k p => reverseAgrees t k p = true) t ->
  t !! (a +:+ "-" +:+ b) = Some p -> t !! (b +:+ "-" +:+ a) = Some q -> p = q.
Proof.
  intros Ht Hp Hq.
  pose proof (map_Forall_lookup_1 _ _ _ _ Ht Hp) as H. unfold reverseAgrees in H.
  apply andb_true_iff in H as [Hc H]. apply Nat.eqb_eq in Hc.
  rewrite countDash_routeKey in Hc.
  rewrite splitDash_routeKey in H by lia. rewrite Hq in H. now apply sameQ_eq.
Qed.

Lemma orNum_commutes (t : gmap string Q) a b (rest : value) :
  map_Forall (fun (_ : string) q => durationOK q = true) t ->
  map_Forall (fun k p => reverseAgrees t k p = true) t ->
  orNum (get t (a +:+ "-" +:+ b)) (orNum (get t (b +:+ "-" +:+ a)) rest)
  = orNum (get t (b +:+ "-" +:+ a)) (orNum (get t (a +:+ "-" +:+ b)) rest).
Proof.
  intros Hok Hrev.
  assert (Hnz : forall k p, t !! k = Some p -> Qeq_bool p 0 = false).
  { intros k p Hk. pose proof (map_Forall_lookup_1 _ _ _ _ Hok Hk) as H.
    unfold durationOK in H. reflect_checks H. apply H. }
  destruct (get_cases t (a +:+ "-" +:+ b)) as [(p & Ep & ->) | [(_ & Ei & _) | (_ & _ & ->)]];
    [| rewrite routeKey_not_inherited in Ei; discriminate |];
  destruct (get_cases t (b +:+ "-" +:+ a)) as [(q & Eq & ->) | [(_ & Ei & _) | (_ & _ & ->)]];
    try (rewrite routeKey_not_inherited in Ei; discriminate); cbn [orNum].
  - rewrite (Hnz _ _ Ep), (Hnz _ _ Eq).
    now rewrite (reverse_durations_agree t a b p q Hrev Ep Eq).
  - now rewrite (Hnz _ _ Ep).
  - now rewrite (Hnz _ _ Eq).
  - reflexivity.
Qed.

(** X2: the details of a flight do not depend on its direction: on the
    same draws, [getFlightDetails] gives the same duration and stops for
    (origin, destination) and for (destination, origin). *)
Theorem X2_details_direction_symmetric origin destination isDomestic s :
  run (getFlightDetails origin destination isDomestic) s
  = run (getFlightDetails destination origin isDomestic) s.
Proof.
  rewrite !getFlightDetails_run.
  assert (E : baseDuration origin destination isDomestic
              = baseDuration destination origin isDomestic).
  { unfold baseDuration. destruct isDomestic.
    - apply orNum_commutes;
        [exact domesticDurations_range | exact domesticDurations_reverse].
    - apply orNum_commutes;
        [exact internationalDurations_range | exact internationalDurations_reverse]. }
  now rewrite E.
Qed.

Lemma formatDuration_Num x :
  formatDuration (Num x)
  = decimal (Qfloor x) +:+ "h "
    +:+ decimal (roundQ ((x - inject_Z (Qfloor x)) * 60)) +:+ "m".
Proof.
  unfold formatDuration, Math_floor, Math_round, mul, sub, toString, Int, decimal.
  now rewrite !Qfloor_Z.
Qed.

Lemma minutes_range x :
  (0 <= roundQ ((x - inject_Z (Qfloor x)) * 60) <= 60)%Z.
Proof.
  pose proof (Qfloor_le x) as H0. pose proof (Qlt_floor x) as H1.
  rewrite inject_Z_plus in H1. change (inject_Z 1) with 1 in H1.
  set (f := inject_Z (Qfloor x)) in *. clearbody f.
  split.
  - change 0%Z with (roundQ 0). apply roundQ_le. lra.
  - apply Z.le_trans with (roundQ 60); [apply roundQ_le; lra |].
    change (roundQ 60) with 60%Z. lia.
Qed.

(** X3: for draws in [[0, 1)] the duration of a flight is printed as
    ["<H>h <M>m"] with [H] between 0 and 15 and [M] between 0 and 60: never
    [NaN], but the minutes are rounded on their own and can reach 60. *)
Theorem X3_duration_format origin destination isDomestic s :
  unit_draws s ->
  exists H M,
    fd_duration (run (getFlightDetails origin destination isDomestic) s)
      = decimal H +:+ "h " +:+ decimal M +:+ "m"
    /\ (0 <= H <= 15)%Z /\ (0 <= M <= 60)%Z.
Proof.
  intros Hs. destruct (Hs 0%nat) as [H0 H1].
  rewrite getFlightDetails_run. cbn [fd_duration].
  destruct (baseDuration_number origin destination isDomestic) as (b & -> & Hb1 & Hb15).
  cbn [toNumber jitter mul sub add].
  set (x := b + (s 0%nat - 0.5) * 0.5).
  exists (Qfloor x), (roundQ ((x - inject_Z (Qfloor x)) * 60)).
  split; [| split].
  - apply formatDuration_Num.
  - assert (Hx : 0 <= x /\ x < 16) by (unfold x; split; lra).
    split.
    + change 0%Z with (Qfloor 0). now apply Qfloor_resp_le.
    + assert (Hf : (Qfloor x < 16)%Z).
      { rewrite Zlt_Qlt. apply Qle_lt_trans with x; [apply Qfloor_le | apply Hx]. }
      lia.
  - apply minutes_range.
Qed.

Lemma X3_duration_format_witness :
  unit_draws halves
  /\ exists H M,
       fd_duration (run (getFlightDetails "mumbai" "goa" true) halves)
         = decimal H +:+ "h " +:+ decimal M +:+ "m"
       /\ (0 <= H <= 15)%Z /\ (0 <= M <= 60)%Z.
Proof.
  split; [exact halves_unit |].
  exact (X3_duration_format "mumbai" "goa" true halves halves_unit).
Defined.

(** The bound of 60 minutes is reached: Delhi to Kolkata takes 2.0 hours,
    and with the draw 0.49 the resolved 1.995 hours print as below. *)
Example duration_sixty_minutes :
  fd_duration (run (getFlightDetails "delhi" "kolkata" true) (fun _ => 0.49)) = "1h 60m".
Proof. vm_compute. reflexivity. Qed.

(** *** Flights *)

Section Normalisation.

Local Open Scope nat_scope.

(** Bytes. *)

Lemma lower_cases c : lower c = c \/ (code c < 128 /\ code (lower c) < 128).
Proof. destruct c as [[] [] [] [] [] [] [] []]; (left; reflexivity) || (right; vm_compute; lia). Qed.

Lemma lower_idem c : lower (lower c) = lower c.
Proof. destruct c as [[] [] [] [] [] [] [] []]; reflexivity. Qed.

Lemma isSpace_lower c : isSpace (lower c) = isSpace c.
Proof. destruct c as [[] [] [] [] [] [] [] []]; reflexivity. Qed.

Lemma isSpace_low c : isSpace c = true -> code c < 128.
Proof. destruct c as [[] [] [] [] [] [] [] []]; vm_compute; intros; try discriminate; lia. Qed.

Ltac bytes H :=
  unfold isSpace2, isSpace3, isKelvin in H; cbv zeta in H;
  repeat rewrite ?orb_true_iff, ?andb_true_iff, ?Nat.eqb_eq, ?Nat.leb_le in H.

Lemma isSpace2_codes c c1 : isSpace2 c c1 = true -> code c = 194 /\ code c1 = 160.
Proof. intros H. bytes H. lia. Qed.

Lemma isSpace3_codes c c1 c2 :
  isSpace3 c c1 c2 = true ->
  128 <= code c /\ code c <> 226 \/ code c = 226 /\ (code c1 = 128 \/ code c1 = 129).
Proof. intros H. bytes H. lia. Qed.

Lemma isSpace3_high c c1 c2 :
  isSpace3 c c1 c2 = true ->
  128 <= code c /\ 128 <= code c1 /\ 128 <= code c2
  /\ code c1 <> 226 /\ code c2 <> 226 /\ code c1 <> 132.
Proof. intros H. bytes H. lia. Qed.

Lemma isKelvin_codes c c1 c2 :
  isKelvin c c1 c2 = true -> code c = 226 /\ code c1 = 132 /\ code c2 = 170.
Proof. intros H. bytes H. lia. Qed.

Lemma code_inj c c' : code c = code c' -> c = c'.
Proof.
  intros H. unfold code in H.
  rewrite <- (ascii_nat_embedding c), <- (ascii_nat_embedding c'). now rewrite H.
Qed.

(** Trimming. *)

Lemma string_length_ind (P : string -> Prop) :
  (forall s, (forall r, String.length r < String.length s -> P r) -> P s) ->
  forall s, P s.
Proof.
  intros H s. remember (String.length s) as n eqn:E.
  revert s E. induction n as [n IH] using lt_wf_ind. intros s ->.
  apply H. intros r Hr. exact (IH _ Hr r eq_refl).
Qed.

Lemma dropSpace_length s r : dropSpace s = Some r -> String.length r < String.length s.
Proof.
  unfold dropSpace. destruct s as [|c [|c1 [|c2 r2]]]; try discriminate;
    repeat match goal with |- context [if ?b then _ else _] => destruct b end;
    intros [= <-]; cbn; lia.
Qed.

Lemma trimStartFrom_fuel n m s :
  String.length s <= n -> String.length s <= m -> trimStartFrom n s = trimStartFrom m s.
Proof.
  revert m s. induction n as [|n IH]; intros m s Hn Hm.
  - destruct s; [| cbn in Hn; lia]. destruct m; reflexivity.
  - destruct m as [|m].
    + destruct s; [reflexivity | cbn in Hm; lia].
    + cbn [trimStartFrom]. destruct (dropSpace s) as [r|] eqn:E; [| reflexivity].
      apply dropSpace_length in E. apply IH; lia.
Qed.

Lemma trimStart_eq s :
  trimStart s = match dropSpace s with Some r => trimStart r | None => s end.
Proof.
  unfold trimStart. destruct s as [|c r0]; [reflexivity |].
  cbn [String.length trimStartFrom].
  destruct (dropSpace (String c r0)) as [r|] eqn:E; [| reflexivity].
  apply dropSpace_length in E. cbn in E. apply trimStartFrom_fuel; lia.
Qed.

Lemma dropSpace_trimStart s : dropSpace (trimStart s) = None.
Proof.
  induction s as [s IH] using string_length_ind.
  rewrite trimStart_eq. destruct (dropSpace s) as [r|] eqn:E; [| exact E].
  apply IH. now apply dropSpace_length.
Qed.

Lemma trimStart_fixed s : dropSpace s = None -> trimStart s = s.
Proof. intros H. rewrite trimStart_eq. now rewrite H. Qed.

Lemma trimStart_idem s : trimStart (trimStart s) = trimStart s.
Proof. apply trimStart_fixed, dropSpace_trimStart. Qed.

Lemma append_cons c x w : String c x +:+ w = String c (x +:+ w).
Proof. reflexivity. Qed.

Lemma append_nil w : "" +:+ w = w.
Proof. reflexivity. Qed.

Lemma dropSpace_app s r w : dropSpace s = Some r -> dropSpace (s +:+ w) = Some (r +:+ w).
Proof.
  destruct s as [|c [|c1 [|c2 r2]]]; cbn [dropSpace];
    rewrite ?append_cons, ?append_nil; cbn [dropSpace].
  - discriminate.
  - destruct (isSpace c); [now intros [= <-] | discriminate].
  - destruct (isSpace c); [now intros [= <-] |].
    destruct (isSpace2 c c1); [now intros [= <-] | discriminate].
  - destruct (isSpace c); [now intros [= <-] |].
    destruct (isSpace2 c c1); [now intros [= <-] |].
    destruct (isSpace3 c c1 c2); [now intros [= <-] | discriminate].
Qed.

Lemma allSpace_eq s :
  allSpace s = match s with
               | EmptyString => true
               | _ => match dropSpace s with Some r => allSpace r | None => false end
               end.
Proof.
  unfold allSpace. rewrite trimStart_eq. destruct s as [|c r]; [reflexivity |].
  destruct (dropSpace (String c r)); reflexivity.
Qed.

Lemma allSpace_app s w : allSpace s = true -> allSpace w = true -> allSpace (s +:+ w) = true.
Proof.
  induction s as [s IH] using string_length_ind. intros Hs Hw.
  destruct s as [|c r]; [exact Hw |].
  rewrite allSpace_eq in Hs. destruct (dropSpace (String c r)) as [r'|] eqn:E; [| discriminate].
  rewrite allSpace_eq. change (String c r +:+ w) with (String c (r +:+ w)).
  change (String c (r +:+ w)) with (String c r +:+ w).
  rewrite (dropSpace_app _ _ w E).
  change (String c r +:+ w) with (String c (r +:+ w)). cbv iota.
  apply IH; [now apply dropSpace_length | exact Hs | exact Hw].
Qed.

(** [trimEnd] removes a tail of white space. *)
Lemma trimEnd_split s : exists w, s = trimEnd s +:+ w /\ allSpace w = true.
Proof.
  induction s as [|c r IH]; [exists ""; split; reflexivity |].
  cbn [trimEnd]. destruct (allSpace (String c r)) eqn:E.
  - exists (String c r). split; [reflexivity | exact E].
  - destruct IH as (w & Hw & Hs). exists w. split; [| exact Hs].
    change (String c (trimEnd r) +:+ w) with (String c (trimEnd r +:+ w)). now rewrite <- Hw.
Qed.

Lemma trimEnd_idem s : trimEnd (trimEnd s) = trimEnd s.
Proof.
  induction s as [|c r IH]; [reflexivity |].
  cbn [trimEnd]. destruct (allSpace (String c r)) eqn:E; [reflexivity |].
  cbn [trimEnd]. rewrite IH.
  destruct (allSpace (String c (trimEnd r))) eqn:E'; [| reflexivity].
  destruct (trimEnd_split r) as (w & Hw & Hs).
  pose proof (allSpace_app _ w E' Hs) as H.
  change (String c (trimEnd r) +:+ w) with (String c (trimEnd r +:+ w)) in H.
  rewrite <- Hw in H. congruence.
Qed.

Lemma dropSpace_trimEnd s : dropSpace s = None -> dropSpace (trimEnd s) = None.
Proof.
  intros H. destruct (dropSpace (trimEnd s)) as [r|] eqn:E; [| reflexivity].
  destruct (trimEnd_split s) as (w & Hw & _).
  apply (dropSpace_app _ _ w) in E. rewrite <- Hw in E. congruence.
Qed.

Lemma trim_idem s : trim (trim s) = trim s.
Proof.
  unfold trim.
  rewrite (trimStart_fixed (trimEnd (trimStart s)))
    by apply dropSpace_trimEnd, dropSpace_trimStart.
  apply trimEnd_idem.
Qed.

(** Lower case. *)

Lemma toLowerCase_kelvin c c1 c2 r :
  isKelvin c c1 c2 = true ->
  toLowerCase (String c (String c1 (String c2 r))) = String "k" (toLowerCase r).
Proof. intros H. cbn [toLowerCase]. now rewrite H. Qed.

Lemma toLowerCase_other c r :
  kelvinHead (String c r) = false ->
  toLowerCase (String c r) = String (lower c) (toLowerCase r).
Proof.
  destruct r as [|c1 [|c2 r2]]; try reflexivity.
  cbn [kelvinHead]. intros H. cbn [toLowerCase]. now rewrite H.
Qed.

Lemma kelvinHead_spec s :
  kelvinHead s = true ->
  exists c c1 c2 r, s = String c (String c1 (String c2 r)) /\ isKelvin c c1 c2 = true.
Proof.
  destruct s as [|c [|c1 [|c2 r]]]; try discriminate. intros H. now exists c, c1, c2, r.
Qed.

Lemma lower_high c : 128 <= code (lower c) -> lower c = c.
Proof. destruct (lower_cases c) as [H | H]; [easy | lia]. Qed.

Lemma lower_of_high c : 128 <= code c -> lower c = c.
Proof. destruct (lower_cases c) as [H | H]; [easy | lia]. Qed.

(** A byte of [toLowerCase r] outside ASCII is the byte of [r] it comes
    from. *)
Lemma toLowerCase_high_head r y Y :
  toLowerCase r = String y Y -> 128 <= code y ->
  exists r1, r = String y r1 /\ Y = toLowerCase r1 /\ kelvinHead r = false.
Proof.
  intros E Hy. destruct r as [|c1 r1]; [discriminate E |].
  destruct (kelvinHead (String c1 r1)) eqn:K.
  - apply kelvinHead_spec in K as (c & d & e & r & [= -> ->] & K).
    rewrite (toLowerCase_kelvin _ _ _ _ K) in E. injection E as <- <-.
    change (code "k") with 107 in Hy. lia.
  - rewrite (toLowerCase_other _ _ K) in E. injection E as <- <-.
    rewrite (lower_high _ Hy). eauto.
Qed.

Lemma toLowerCase_empty s : toLowerCase s = "" -> s = "".
Proof.
  destruct s as [|c r]; [reflexivity |].
  destruct (kelvinHead (String c r)) eqn:K.
  - apply kelvinHead_spec in K as (a & b & d & r' & [= -> ->] & K).
    now rewrite (toLowerCase_kelvin _ _ _ _ K).
  - now rewrite (toLowerCase_other _ _ K).
Qed.

Lemma isSpace2_lower c c1 : isSpace2 (lower c) (lower c1) = isSpace2 c c1.
Proof.
  destruct (lower_cases c) as [-> | [Hc Hc']], (lower_cases c1) as [-> | [Hd Hd']];
    try reflexivity;
    destruct (isSpace2 _ _) eqn:E1; destruct (isSpace2 c c1) eqn:E2; try reflexivity;
    try apply isSpace2_codes in E1; try apply isSpace2_codes in E2; lia.
Qed.

Lemma isSpace3_lower c c1 c2 :
  isSpace3 (lower c) (lower c1) (lower c2) = isSpace3 c c1 c2.
Proof.
  destruct (isSpace3 c c1 c2) eqn:E2.
  - apply isSpace3_high in E2 as E. destruct E as (H0 & H1 & H2 & _).
    now rewrite !lower_of_high.
  - destruct (isSpace3 (lower c) (lower c1) (lower c2)) eqn:E1; [| reflexivity].
    apply isSpace3_high in E1 as E. destruct E as (H0 & H1 & H2 & _).
    rewrite !lower_high in E1 by assumption. congruence.
Qed.

Lemma dropSpace_k Z : dropSpace (String "k" Z) = None.
Proof. destruct Z as [|c1 [|c2 r2]]; reflexivity. Qed.

Lemma dropSpace_kelvin c c1 c2 r :
  isKelvin c c1 c2 = true -> dropSpace (String c (String c1 (String c2 r))) = None.
Proof.
  intros K. apply isKelvin_codes in K as (H0 & H1 & H2). cbn [dropSpace].
  destruct (isSpace c) eqn:E0; [apply isSpace_low in E0; lia |].
  destruct (isSpace2 c c1) eqn:E1; [apply isSpace2_codes in E1; lia |].
  destruct (isSpace3 c c1 c2) eqn:E2; [apply isSpace3_high in E2; lia | reflexivity].
Qed.

Lemma dropSpace_toLowerCase s :
  dropSpace (toLowerCase s) = toLowerCase <$> dropSpace s.
Proof.
  destruct s as [|c r]; [reflexivity |].
  destruct (kelvinHead (String c r)) eqn:K.
  { apply kelvinHead_spec in K as (a & b & d & r' & [= -> ->] & K).
    now rewrite (toLowerCase_kelvin _ _ _ _ K), dropSpace_k, (dropSpace_kelvin _ _ _ _ K). }
  rewrite (toLowerCase_other _ _ K). cbn [dropSpace]. rewrite isSpace_lower.
  destruct (isSpace c) eqn:E0; [reflexivity |].
  destruct r as [|c1 r1]; [reflexivity |].
  destruct (kelvinHead (String c1 r1)) eqn:K1.
  { apply kelvinHead_spec in K1 as (a & b & d & r' & [= -> ->] & K1).
    rewrite (toLowerCase_kelvin _ _ _ _ K1).
    apply isKelvin_codes in K1 as (H0 & H1 & H2).
    destruct (isSpace2 (lower c) "k") eqn:E; [apply isSpace2_codes in E; change (code "k") with 107 in E; lia |].
    destruct (isSpace2 c a) eqn:E'; [apply isSpace2_codes in E'; lia |].
    assert (E3 : isSpace3 c a b = false).
    { destruct (isSpace3 c a b) eqn:E3; [apply isSpace3_high in E3; lia | reflexivity]. }
    rewrite E3.
    destruct (toLowerCase r') as [|z Z]; [reflexivity |].
    destruct (isSpace3 (lower c) "k" z) eqn:E4; [| reflexivity].
    apply isSpace3_high in E4. change (code "k") with 107 in E4. lia. }
  rewrite (toLowerCase_other _ _ K1). rewrite isSpace2_lower.
  destruct (isSpace2 c c1) eqn:E1; [reflexivity |].
  destruct r1 as [|c2 r2]; [reflexivity |].
  destruct (kelvinHead (String c2 r2)) eqn:K2.
  { apply kelvinHead_spec in K2 as (a & b & d & r' & [= -> ->] & K2).
    rewrite (toLowerCase_kelvin _ _ _ _ K2).
    apply isKelvin_codes in K2 as (H0 & H1 & H2).
    destruct (isSpace3 (lower c) (lower c1) "k") eqn:E;
      [apply isSpace3_high in E; change (code "k") with 107 in E; lia |].
    destruct (isSpace3 c c1 a) eqn:E'; [apply isSpace3_high in E'; lia | reflexivity]. }
  rewrite (toLowerCase_other _ _ K2). rewrite isSpace3_lower.
  destruct (isSpace3 c c1 c2); reflexivity.
Qed.

Lemma trimStart_toLowerCase s : trimStart (toLowerCase s) = toLowerCase (trimStart s).
Proof.
  induction s as [s IH] using string_length_ind.
  rewrite (trimStart_eq s), (trimStart_eq (toLowerCase s)), dropSpace_toLowerCase.
  destruct (dropSpace s) as [r|] eqn:E; cbn; [| reflexivity].
  apply IH. now apply dropSpace_length.
Qed.

Lemma allSpace_toLowerCase s : allSpace (toLowerCase s) = allSpace s.
Proof.
  unfold allSpace. rewrite trimStart_toLowerCase.
  destruct (trimStart s) as [|c r] eqn:E; [reflexivity |].
  destruct (toLowerCase (String c r)) eqn:E'; [| reflexivity].
  apply toLowerCase_empty in E'. discriminate.
Qed.

Lemma dropSpace_inner c Z :
  128 <= code c -> code c <> 194 -> code c <> 225 -> code c <> 226 -> code c <> 227 ->
  code c <> 239 -> dropSpace (String c Z) = None.
Proof.
  intros H0 H1 H2 H3 H4 H5. cbn [dropSpace].
  destruct (isSpace c) eqn:E0; [apply isSpace_low in E0; lia |].
  destruct Z as [|c1 [|c2 r2]]; try reflexivity.
  - destruct (isSpace2 c c1) eqn:E1; [apply isSpace2_codes in E1; lia | reflexivity].
  - destruct (isSpace2 c c1) eqn:E1; [apply isSpace2_codes in E1; lia |].
    destruct (isSpace3 c c1 c2) eqn:E2; [| reflexivity].
    bytes E2. lia.
Qed.

Lemma allSpace_false c Z : dropSpace (String c Z) = None -> allSpace (String c Z) = false.
Proof. intros H. rewrite allSpace_eq. now rewrite H. Qed.

Lemma kelvinHead_trimEnd c r :
  kelvinHead (String c (trimEnd r)) = true -> kelvinHead (String c r) = true.
Proof.
  intros K. destruct (trimEnd_split r) as (w & Hw & _).
  destruct (trimEnd r) as [|c1 [|c2 X]]; try discriminate K.
  rewrite Hw. exact K.
Qed.

Lemma trimEnd_toLowerCase s : trimEnd (toLowerCase s) = toLowerCase (trimEnd s).
Proof.
  induction s as [s IH] using string_length_ind.
  destruct s as [|c r]; [reflexivity |].
  destruct (kelvinHead (String c r)) eqn:K.
  - apply kelvinHead_spec in K as (a & b & d & r' & [= -> ->] & K).
    rewrite (toLowerCase_kelvin _ _ _ _ K).
    pose proof (isKelvin_codes _ _ _ K) as (H0 & H1 & H2).
    cbn [trimEnd].
    rewrite (allSpace_false _ _ (dropSpace_k _)).
    rewrite (allSpace_false _ _ (dropSpace_kelvin _ _ _ r' K)).
    rewrite (allSpace_false b (String d r')) by (apply dropSpace_inner; lia).
    rewrite (allSpace_false d r') by (apply dropSpace_inner; lia).
    rewrite (toLowerCase_kelvin _ _ _ _ K).
    rewrite IH by (cbn; lia). reflexivity.
  - pose proof (allSpace_toLowerCase (String c r)) as HA.
    rewrite (toLowerCase_other _ _ K) in *. cbn [trimEnd]. rewrite HA.
    destruct (allSpace (String c r)) eqn:E; [reflexivity |].
    rewrite IH by (cbn; lia).
    rewrite toLowerCase_other; [reflexivity |].
    destruct (kelvinHead (String c (trimEnd r))) eqn:K'; [| reflexivity].
    apply kelvinHead_trimEnd in K'. congruence.
Qed.

Lemma toLowerCase_idem s : toLowerCase (toLowerCase s) = toLowerCase s.
Proof.
  induction s as [s IH] using string_length_ind.
  destruct s as [|c r]; [reflexivity |].
  destruct (kelvinHead (String c r)) eqn:K.
  - apply kelvinHead_spec in K as (a & b & d & r' & [= -> ->] & K).
    rewrite (toLowerCase_kelvin _ _ _ _ K).
    rewrite toLowerCase_other.
    + rewrite IH by (cbn; lia). reflexivity.
    + destruct (toLowerCase r') as [|y1 [|y2 Y]]; reflexivity.
  - rewrite (toLowerCase_other _ _ K).
    rewrite toLowerCase_other.
    + rewrite lower_idem, IH by (cbn; lia). reflexivity.
    + destruct (kelvinHead (String (lower c) (toLowerCase r))) eqn:K'; [| reflexivity].
      exfalso.
      destruct (toLowerCase r) as [|y1 [|y2 Y]] eqn:E; try discriminate K'.
      cbn [kelvinHead] in K'. pose proof (isKelvin_codes _ _ _ K') as (H0 & H1 & H2).
      destruct (toLowerCase_high_head _ _ _ E) as (r1 & -> & E1 & _); [lia |].
      symmetry in E1.
      destruct (toLowerCase_high_head _ _ _ E1) as (r2 & -> & _ & _); [lia |].
      cbn [kelvinHead] in K. rewrite lower_high in K' by lia. congruence.
Qed.

Lemma trim_toLowerCase s : trim (toLowerCase s) = toLowerCase (trim s).
Proof. unfold trim. now rewrite trimStart_toLowerCase, trimEnd_toLowerCase. Qed.

(** Normalising a name twice is normalising it once. *)
Lemma normalise_idem s :
  toLowerCase (trim (toLowerCase (trim s))) = toLowerCase (trim s).
Proof. now rewrite trim_toLowerCase, trim_idem, toLowerCase_idem. Qed.

End Normalisation.

Example normalise_no_break_space :
  toLowerCase (trim (nbsp +:+ " Mumbai" +:+ nbsp)) = "mumbai"
  /\ toLowerCase (trim (nbsp +:+ "constructor")) = "constructor"
  /\ toLowerCase (trim (kelvinSign +:+ "ol" +:+ kelvinSign +:+ "ata ")) = "kolkata".
Proof. repeat split; vm_compute; reflexivity. Qed.

(** X4: the flight quote depends on the origin and the destination only
    through their trimmed, lower-cased form, and not at all on the return
    date or on the number of passengers. *)
Theorem X4_flight_quote_normalised
    Date_getMonth hostBasePrice origin destination departDate returnDate passengers
    returnDate' passengers' s :
  run (mockFlightAPI Date_getMonth hostBasePrice origin destination departDate
                     returnDate passengers) s
  = run (mockFlightAPI Date_getMonth hostBasePrice (toLowerCase (trim origin))
                       (toLowerCase (trim destination)) departDate
                       returnDate' passengers') s.
Proof. rewrite !mockFlightAPI_run. cbv zeta. now rewrite !normalise_idem. Qed.

Lemma peak_multiplier month :
  getSeasonalMultiplier month = if peakMonth month then Num 1.3 else Num 0.9.
Proof. reflexivity. Qed.

Lemma roundQ_lt x y : x + 1 <= y -> (roundQ x < roundQ y)%Z.
Proof.
  intros H. unfold roundQ.
  pose proof (Qfloor_le (x + (1 # 2))) as Hx.
  pose proof (Qlt_floor (y + (1 # 2))) as Hy.
  rewrite inject_Z_plus in Hy. change (inject_Z 1) with 1 in Hy.
  rewrite Zlt_Qlt.
  set (fx := inject_Z (Qfloor (x + (1 # 2)))) in *.
  set (fy := inject_Z (Qfloor (y + (1 # 2)))) in *.
  clearbody fx fy. lra.
Qed.

(** X5: for draws in [[0, 1)] and an origin and a destination that, once
    trimmed and lower-cased, do not name an inherited property: on the same
    route and the same draws, a departure in a peak month (June to
    September, December) is quoted strictly above a departure in any other
    month, an unparseable date included; airline, duration, stops and
    booking class do not change. *)
Theorem X5_peak_departure_costs_more
    Date_getMonth hostBasePrice origin destination peakDate otherDate returnDate
    passengers s :
  unit_draws s ->
  inherited (toLowerCase (trim origin)) = false ->
  inherited (toLowerCase (trim destination)) = false ->
  peakMonth (Date_getMonth peakDate) = true ->
  peakMonth (Date_getMonth otherDate) = false ->
  exists q1 q2 z1 z2,
    run (mockFlightAPI Date_getMonth hostBasePrice origin destination peakDate
                       returnDate passengers) s = Ok q1
    /\ run (mockFlightAPI Date_getMonth hostBasePrice origin destination otherDate
                          returnDate passengers) s = Ok q2
    /\ price q1 = Int z1 /\ price q2 = Int z2 /\ (z2 < z1)%Z
    /\ airline q1 = airline q2 /\ duration q1 = duration q2 /\ stops q1 = stops q2
    /\ bookingClass q1 = bookingClass q2.
Proof.
  intros Hs Ho Hd Hpeak Hother. destruct (Hs 0%nat) as [H0 H1].
  rewrite !mockFlightAPI_run. cbv zeta.
  destruct (basePrice_plain hostBasePrice _ _ Ho Hd) as (b & -> & Hb).
  rewrite !peak_multiplier, Hpeak, Hother.
  do 4 eexists. split; [reflexivity |]. split; [reflexivity |].
  cbn [price airline duration stops bookingClass].
  unfold flightPrice. cbn [flightVariation mul add sub Math_round].
  split; [reflexivity |]. split; [reflexivity |].
  split; [| repeat split].
  apply roundQ_lt. nra.
Qed.

Lemma X5_peak_departure_costs_more_witness :
  unit_draws halves
  /\ inherited (toLowerCase (trim "Delhi")) = false
  /\ inherited (toLowerCase (trim "Goa")) = false
  /\ peakMonth (calendar "2024-07-01") = true
  /\ peakMonth (calendar "next week") = false
  /\ exists q1 q2 z1 z2,
       run (mockFlightAPI calendar bareHost "Delhi" "Goa" "2024-07-01"
                          "2024-07-09" (Int 1)) halves = Ok q1
       /\ run (mockFlightAPI calendar bareHost "Delhi" "Goa" "next week"
                             "2024-07-09" (Int 1)) halves = Ok q2
       /\ price q1 = Int z1 /\ price q2 = Int z2 /\ (z2 < z1)%Z
       /\ airline q1 = airline q2 /\ duration q1 = duration q2 /\ stops q1 = stops q2
       /\ bookingClass q1 = bookingClass q2.
Proof.
  split; [exact halves_unit |]. do 4 (split; [reflexivity |]).
  exact (X5_peak_departure_costs_more calendar bareHost "Delhi" "Goa" "2024-07-01"
           "next week" "2024-07-09" (Int 1) halves halves_unit eq_refl eq_refl
           eq_refl eq_refl).
Defined.

Example flight_prices_delhi_goa :
  (price <$> (match run (mockFlightAPI calendar bareHost "Delhi" "Goa" "2024-07-01"
                                       "2024-07-09" (Int 1)) halves with
              | Ok q => Some q | Throw => None end),
   price <$> (match run (mockFlightAPI calendar bareHost "Delhi" "Goa" "next week"
                                       "2024-07-09" (Int 1)) halves with
              | Ok q => Some q | Throw => None end))
  = (Some (Int 169), Some (Int 117)).
Proof. vm_compute. reflexivity. Qed.

(** X6: for draws in [[0, 1)] and names that do not reach
    [Object.prototype], the airline of a route within India is one of the
    five domestic carriers and its flight has at most one stop; any other
    route gets one of the seven international carriers; the booking class
    is one of the three classes. *)
Theorem X6_carrier_by_route
    Date_getMonth hostBasePrice origin destination departDate returnDate passengers s :
  let lowerOrigin := toLowerCase (trim origin) in
  let lowerDestination := toLowerCase (trim destination) in
  let isDomestic := isIndian lowerOrigin && isIndian lowerDestination in
  unit_draws s ->
  inherited lowerOrigin = false ->
  inherited lowerDestination = false ->
  exists q a c,
    run (mockFlightAPI Date_getMonth hostBasePrice origin destination departDate
                       returnDate passengers) s = Ok q
    /\ airline q = Some a
    /\ In a (if isDomestic then domesticAirlines else internationalAirlines)
    /\ (0 <= stops q <= (if isDomestic then 1 else 2))%Z
    /\ bookingClass q = Some c /\ In c bookingClasses.
Proof.
  intros lo ld isDomestic Hs Ho Hd.
  rewrite mockFlightAPI_run. cbv zeta.
  unfold isDomestic, isIndian. subst lo ld.
  destruct (basePrice_plain hostBasePrice _ _ Ho Hd) as (b & -> & _).
  set (dom := existsb _ indianCities && existsb _ indianCities).
  destruct (Hs 3%nat) as [H30 H31]. destruct (Hs 5%nat) as [H50 H51].
  destruct (pick_unit (if dom then domesticAirlines else internationalAirlines)
              (s 3%nat)) as (a & Ha & Hina);
    [destruct dom; discriminate | assumption | assumption |].
  destruct (pick_unit bookingClasses (s 5%nat)) as (c & Hc & Hinc);
    [discriminate | assumption | assumption |].
  eexists. exists a, c. split; [reflexivity |].
  cbn [airline stops bookingClass].
  split; [exact Ha |]. split; [exact Hina |]. split; [| split; assumption].
  rewrite getFlightDetails_run. apply stopsFor_range.
Qed.

Lemma X6_carrier_by_route_witness :
  let lowerOrigin := toLowerCase (trim " Chennai") in
  let lowerDestination := toLowerCase (trim "PUNE") in
  let isDomestic := isIndian lowerOrigin && isIndian lowerDestination in
  unit_draws halves
  /\ inherited lowerOrigin = false
  /\ inherited lowerDestination = false
  /\ exists q a c,
       run (mockFlightAPI calendar bareHost " Chennai" "PUNE" "2024-02-01"
                          "2024-02-09" (Int 1)) halves = Ok q
       /\ airline q = Some a
       /\ In a (if isDomestic then domesticAirlines else internationalAirlines)
       /\ (0 <= stops q <= (if isDomestic then 1 else 2))%Z
       /\ bookingClass q = Some c /\ In c bookingClasses.
Proof.
  split; [exact halves_unit |]. do 2 (split; [reflexivity |]).
  exact (X6_carrier_by_route calendar bareHost " Chennai" "PUNE" "2024-02-01"
           "2024-02-09" (Int 1) halves halves_unit eq_refl eq_refl).
Defined.

(** *** Hotels *)

Lemma hotelTypes_unknown roomType :
  ~ In roomType ["budget"; "standard"; "luxury"] -> hotelTypes !! roomType = None.
Proof.
  intros H. apply not_elem_of_list_to_map_1. cbn. intros Hin.
  apply H. apply list_elem_of_In. exact Hin.
Qed.

(** X7: a room type that is none of the three tiers (and does not name an
    inherited property) is quoted as a standard room: on the same draws
    the quote is the one for ['standard'], whatever the dates and the
    number of guests. *)
Theorem X7_unknown_room_is_standard
    destination checkIn checkOut guests checkIn' checkOut' guests' roomType s :
  ~ In roomType ["budget"; "standard"; "luxury"] ->
  inherited roomType = false ->
  run (mockHotelAPI destination checkIn checkOut guests roomType) s
  = run (mockHotelAPI destination checkIn' checkOut' guests' "standard") s.
Proof.
  intros Hk Hi. rewrite !mockHotelAPI_run.
  assert (Hb : String.eqb roomType "budget" = false).
  { apply String.eqb_neq. intros ->. apply Hk. left. reflexivity. }
  unfold get at 1. rewrite (hotelTypes_unknown _ Hk), Hi. cbn [orElse].
  destruct hotelTypes_standard as [h Hh]. rewrite !(get_own _ _ _ Hh). cbn [orElse].
  now rewrite Hb.
Qed.

Lemma X7_unknown_room_is_standard_witness :
  ~ In "suite" ["budget"; "standard"; "luxury"]
  /\ inherited "suite" = false
  /\ run (mockHotelAPI "Paris" "2024-07-01" "2024-07-09" (Int 2) "suite") halves
     = run (mockHotelAPI "Paris" "2024-08-01" "2024-08-02" (Int 5) "standard") halves.
Proof.
  assert (H : ~ In "suite" ["budget"; "standard"; "luxury"]).
  { cbn. intros [H | [H | [H | []]]]; discriminate H. }
  split; [exact H |]. split; [reflexivity |].
  exact (X7_unknown_room_is_standard "Paris" "2024-07-01" "2024-07-09" (Int 2)
           "2024-08-01" "2024-08-02" (Int 5) "suite" halves H eq_refl).
Defined.

Lemma hotelTypes_consistent :
  map_Forall (fun k h => tierConsistent k h = true) hotelTypes.
Proof. table_scan. Qed.

Lemma hotelTypes_budget : exists h, hotelTypes !! "budget" = Some h.
Proof. eexists. vm_compute. reflexivity. Qed.

(** The tier a room type resolves to, with the key it is stored under. *)
Lemma hotel_tier_key roomType :
  (exists h, orElse (get hotelTypes roomType) (get hotelTypes "standard") = Own h
             /\ exists k, tierConsistent k h = true
                          /\ String.eqb k "budget" = String.eqb roomType "budget")
  \/ (orElse (get hotelTypes roomType) (get hotelTypes "standard") = Inherited roomType
      /\ hotelTypes !! roomType = None /\ inherited roomType = true).
Proof.
  destruct (get_cases hotelTypes roomType) as [(h & E & ->) | [(E & Ei & ->) | (E & Ei & ->)]].
  - left. exists h. split; [reflexivity |]. exists roomType.
    split; [exact (map_Forall_lookup_1 _ _ _ _ hotelTypes_consistent E) | reflexivity].
  - right. easy.
  - left. cbn [orElse]. destruct hotelTypes_standard as [h Hh].
    rewrite (get_own _ _ _ Hh). exists h. split; [reflexivity |]. exists "standard".
    split; [exact (map_Forall_lookup_1 _ _ _ _ hotelTypes_consistent Hh) |].
    destruct (String.eqb_spec roomType "budget") as [-> | _]; [| reflexivity].
    destruct hotelTypes_budget as [b Hb]. congruence.
Qed.

(** X8: in every hotel quote breakfast is included exactly when the room
    cannot be cancelled (the budget tier), WiFi is both flagged and listed
    among the amenities, and the rating lies between 2.5 and 4.8. *)
Theorem X8_hotel_quote_consistent destination checkIn checkOut guests roomType s :
  match run (mockHotelAPI destination checkIn checkOut guests roomType) s with
  | Ok q =>
      breakfast q = negb (cancellation q)
      /\ wifi q = true /\ In "WiFi" (hotelAmenities q)
      /\ 2.5 <= hotelRating q /\ hotelRating q <= 4.8
  | Throw => inherited roomType = true
  end.
Proof.
  rewrite mockHotelAPI_run.
  destruct (hotel_tier_key roomType) as [(h & -> & k & Hk & Hb) | (-> & _ & Hi)];
    [| exact Hi].
  cbn [breakfast cancellation wifi hotelAmenities hotelRating].
  unfold tierConsistent in Hk. reflect_checks Hk.
  destruct Hk as [[[Hbr Hwifi] Hlo] Hhi].
  apply Bool.eqb_prop in Hbr. rewrite Hbr, Hb, negb_involutive.
  split; [reflexivity |]. split; [reflexivity |]. split; [| split; assumption].
  apply existsb_exists in Hwifi as (x & Hin & Hx).
  apply String.eqb_eq in Hx. now subst x.
Qed.

(** Awaiting a mock and rethrowing: what the entry points have in common. *)
Lemma awaited_run {A : Type} (mock : Rand (result A)) (message : string) s :
  run (draw mockData := mock in ret (orRethrow mockData message)) s
  = orRethrow (run mock s) message.
Proof. unfold run, bind, ret. destruct (mock s). reflexivity. Qed.

(** X9: [getHotelPrices] resolves to the quote of [mockHotelAPI] for the
    given room type, ['standard'] when it is omitted; it is rejected only
    for a room type that names an inherited property, and then with the
    message ['Failed to fetch hotel prices']. *)
Theorem X9_getHotelPrices_outcome destination checkIn checkOut guests roomType s :
  match run (getHotelPrices destination checkIn checkOut guests roomType) s with
  | Resolved q =>
      run (mockHotelAPI destination checkIn checkOut guests
                        (default "standard" roomType)) s = Ok q
  | Rejected message =>
      message = "Failed to fetch hotel prices"
      /\ exists name, roomType = Some name
                      /\ hotelTypes !! name = None /\ inherited name = true
  end.
Proof.
  unfold getHotelPrices. rewrite awaited_run.
  destruct (run (mockHotelAPI _ _ _ _ _) s) as [q|] eqn:Hr; cbn [orRethrow];
    [reflexivity |].
  split; [reflexivity |].
  rewrite mockHotelAPI_run in Hr.
  destruct (hotel_tier_key (default "standard" roomType))
    as [(h & Hh & _) | (_ & Hnone & Hi)]; [rewrite Hh in Hr; discriminate Hr |].
  destruct roomType as [name|]; [exists name; easy | discriminate Hi].
Qed.

(** *** Activities *)

(** X10: for draws in [[0, 1)] the average price of an activity is a whole
    number between 25 and 100. *)
Theorem X10_activity_price_range destination duration travelers interests s :
  unit_draws s ->
  match run (mockActivityAPI destination duration travelers interests) s with
  | Ok q => exists z, averagePrice q = Int z /\ (25 <= z <= 100)%Z
  | Throw => inherited (firstInterest interests) = true
  end.
Proof.
  intros Hs. destruct (Hs 0%nat) as [H0 H1]. rewrite mockActivityAPI_run.
  destruct (activity_list interests) as [(l & -> & _) | [-> Hi]]; [| exact Hi].
  cbn [averagePrice mul add Math_round]. eexists. split; [reflexivity |].
  split.
  - apply Z.le_trans with (roundQ 25); [now vm_compute | apply roundQ_le; lra].
  - apply Z.le_trans with (roundQ 100); [apply roundQ_le; lra |].
    change (roundQ 100) with 100%Z. lia.
Qed.

Lemma X10_activity_price_range_witness :
  unit_draws halves
  /\ match run (mockActivityAPI "Goa" (Int 3) (Int 2) ["adventure"]) halves with
     | Ok q => exists z, averagePrice q = Int z /\ (25 <= z <= 100)%Z
     | Throw => inherited (firstInterest ["adventure"]) = true
     end.
Proof.
  split; [exact halves_unit |].
  exact (X10_activity_price_range "Goa" (Int 3) (Int 2) ["adventure"] halves halves_unit).
Defined.

Lemma activities_unknown interest :
  ~ In interest ["cultural"; "adventure"; "food"; "nature"; "default"] ->
  activities !! interest = None.
Proof.
  intros H. apply not_elem_of_list_to_map_1. cbn. intros Hin.
  apply H. apply list_elem_of_In. exact Hin.
Qed.

(** X11: only the first interest counts, and the destination not at all:
    the quote for a list of interests is the quote, at any destination, for
    its first interest alone when that is a category (or names an inherited
    property), and the quote for no interest at all otherwise. *)
Theorem X11_first_interest_decides
    destination destination' duration travelers first others s :
  run (mockActivityAPI destination duration travelers (first :: others)) s
  = run (mockActivityAPI destination' duration travelers
           (if isCategory first || inherited first then [first] else [])) s.
Proof.
  rewrite !mockActivityAPI_run.
  destruct (isCategory first || inherited first) eqn:E; [reflexivity |].
  apply orb_false_iff in E as [Ek Hi]. cbn [firstInterest].
  assert (Hk : ~ In first ["cultural"; "adventure"; "food"; "nature"; "default"]).
  { intros Hin. unfold isCategory in Ek.
    assert (Ht : existsb (String.eqb first)
                   ["cultural"; "adventure"; "food"; "nature"; "default"] = true).
    { apply existsb_exists. exists first. split; [exact Hin | apply String.eqb_refl]. }
    congruence. }
  unfold get at 1. rewrite (activities_unknown _ Hk), Hi. cbn [orElse].
  destruct activities_default as [l Hl]. now rewrite (get_own _ _ _ Hl).
Qed.

Example interests_by_first_only :
  run (mockActivityAPI "Goa" (Int 3) (Int 2) ["food"; "nature"]) halves
  = run (mockActivityAPI "Paris" (Int 3) (Int 2) ["food"]) halves
  /\ run (mockActivityAPI "Goa" (Int 3) (Int 2) ["shopping"; "food"]) halves
     = run (mockActivityAPI "Paris" (Int 3) (Int 2) []) halves.
Proof. split; vm_compute; reflexivity. Qed.

Lemma slice0_prefix {A : Type} (l : list A) e : slice0 l e `prefix_of` l.
Proof.
  unfold slice0. destruct (_ <? _)%Z; apply prefix_take.
Qed.

(** X12: whatever the duration, a number or not, the recommended activities
    are the first entries of the list of the category, in the order of the
    table: at most four of them. *)
Theorem X12_recommended_is_prefix destination duration travelers interests s :
  match run (mockActivityAPI destination duration travelers interests) s with
  | Ok q =>
      exists category,
        orElse (get activities (firstInterest interests)) (get activities "default")
          = Own category
        /\ recommendedActivities q `prefix_of` category
        /\ (length (recommendedActivities q) <= 4)%nat
  | Throw => inherited (firstInterest interests) = true
  end.
Proof.
  rewrite mockActivityAPI_run.
  destruct (activity_list interests) as [(l & -> & Hl) | [-> Hi]]; [| exact Hi].
  cbn [recommendedActivities]. exists l. split; [reflexivity |].
  pose proof (slice0_prefix l (Math_min duration (Num 4))) as Hp.
  split; [exact Hp |]. apply prefix_length in Hp. lia.
Qed.

Lemma toInteger_neg k : (k < 0)%Z -> toInteger (Int k) = k.
Proof.
  intros Hk. unfold toInteger, Int.
  destruct (Qle_bool 0 (inject_Z k)) eqn:E.
  - apply Qle_bool_iff in E. change 0 with (inject_Z 0) in E. rewrite <- Zle_Qle in E. lia.
  - apply Qceiling_Z.
Qed.

(** X13: a negative whole number of days is not refused: the quote counts
    a negative [totalActivities = 2 * days], and still recommends the first
    [4 + days] activities (none from -4 downwards). *)
Theorem X13_negative_duration destination (days : Z) travelers interests s :
  (days < 0)%Z ->
  match run (mockActivityAPI destination (Int days) travelers interests) s with
  | Ok q =>
      same (totalActivities q) (Int (2 * days))
      /\ lt (totalActivities q) (Num 0) = true
      /\ length (recommendedActivities q) = Z.to_nat (Z.max (4 + days) 0)
  | Throw => inherited (firstInterest interests) = true
  end.
Proof.
  intros Hdays. rewrite mockActivityAPI_run.
  destruct (activity_list interests) as [(l & -> & Hl) | [-> Hi]]; [| exact Hi].
  cbn [totalActivities recommendedActivities].
  pose proof (min_ten_doubled days) as Htotal.
  rewrite Z.min_l in Htotal by lia.
  split; [exact Htotal |]. split.
  - destruct (Math_min (mul (Int days) (Num 2)) (Num 10)) as [|t];
      [destruct Htotal |].
    cbn [same Int] in Htotal. apply lt_Num. rewrite Htotal.
    change 0 with (inject_Z 0). rewrite <- Zlt_Qlt. lia.
  - rewrite min_four_Int, Z.min_l by lia. unfold slice0.
    rewrite toInteger_neg by exact Hdays.
    destruct (Z.ltb_spec days 0); [| lia].
    rewrite length_firstn, Hl. lia.
Qed.

Lemma X13_negative_duration_witness :
  (-1 < 0)%Z
  /\ match run (mockActivityAPI "Goa" (Int (-1)) (Int 2) ["food"]) halves with
     | Ok q =>
         same (totalActivities q) (Int (2 * -1))
         /\ lt (totalActivities q) (Num 0) = true
         /\ length (recommendedActivities q) = Z.to_nat (Z.max (4 + -1) 0)
     | Throw => inherited (firstInterest ["food"]) = true
     end.
Proof.
  split; [lia |].
  apply (X13_negative_duration "Goa" (-1) (Int 2) ["food"] halves). lia.
Defined.

(** X14: a duration that is not a number raises nothing: the quote has no
    recommended activity and its [totalActivities] is [NaN]. *)
Theorem X14_duration_not_a_number destination travelers interests s :
  match run (mockActivityAPI destination NaN travelers interests) s with
  | Ok q => totalActivities q = NaN /\ recommendedActivities q = []
  | Throw => inherited (firstInterest interests) = true
  end.
Proof.
  rewrite mockActivityAPI_run.
  destruct (activity_list interests) as [(l & -> & _) | [-> Hi]]; [| exact Hi].
  split; reflexivity.
Qed.

(** X15: with the interests omitted or given as an array of strings,
    [getActivityPrices] resolves to the quote of [mockActivityAPI] for the
    given interests, none when they are omitted; it is rejected only when
    the first interest names an inherited property, and then with the
    message ['Failed to fetch activity prices']. *)
Theorem X15_getActivityPrices_outcome destination duration travelers interests s :
  match run (getActivityPrices destination duration travelers interests) s with
  | Resolved q =>
      run (mockActivityAPI destination duration travelers (default [] interests)) s
      = Ok q
  | Rejected message =>
      message = "Failed to fetch activity prices"
      /\ exists first others,
           interests = Some (first :: others)
           /\ activities !! first = None /\ inherited first = true
  end.
Proof.
  unfold getActivityPrices. rewrite awaited_run.
  destruct (run (mockActivityAPI _ _ _ _) s) as [q|] eqn:Hr; cbn [orRethrow];
    [reflexivity |].
  split; [reflexivity |].
  rewrite mockActivityAPI_run in Hr.
  destruct (get_cases activities (firstInterest (default [] interests)))
    as [(l & _ & E) | [(Hnone & Hi & _) | (_ & _ & E)]].
  - rewrite E in Hr. discriminate Hr.
  - destruct interests as [[|first others]|]; try discriminate Hi.
    exists first, others. easy.
  - rewrite E in Hr. cbn [orElse] in Hr.
    destruct activities_default as [l Hl]. rewrite (get_own _ _ _ Hl) in Hr.
    discriminate Hr.
Qed.

Section FlightEntryPoint.

Variable Date_getMonth : string -> number.
Variable hostBasePrice : string -> string -> result number.

(** X16: for an origin and a destination that are strings,
    [getFlightPrices] resolves to the quote of [mockFlightAPI] (for one
    passenger when the number is omitted); it is rejected, with the message
    ['Failed to fetch flight prices'], only when the normalised origin names
    an inherited property and reading the destination from it raises. *)
Theorem X16_getFlightPrices_outcome origin destination departDate returnDate passengers s :
  match run (getFlightPrices Date_getMonth hostBasePrice origin destination departDate
                             returnDate passengers) s with
  | Resolved q =>
      run (mockFlightAPI Date_getMonth hostBasePrice origin destination departDate
                         returnDate (default (Int 1) passengers)) s = Ok q
  | Rejected message =>
      message = "Failed to fetch flight prices"
      /\ inherited (toLowerCase (trim origin)) = true
      /\ hostBasePrice (toLowerCase (trim origin)) (toLowerCase (trim destination))
         = Throw
  end.
Proof.
  unfold getFlightPrices. rewrite awaited_run.
  destruct (run (mockFlightAPI _ _ _ _ _ _ _) s) as [q|] eqn:Hr; cbn [orRethrow];
    [reflexivity |].
  split; [reflexivity |].
  rewrite mockFlightAPI_run in Hr. cbv zeta in Hr. unfold basePrice in Hr.
  destruct (get_cases routes (toLowerCase (trim origin)))
    as [(inner & _ & E) | [(_ & Hi & E) | (_ & _ & E)]]; rewrite E in Hr;
    try discriminate Hr.
  split; [exact Hi |].
  destruct (hostBasePrice _ _); [discriminate Hr | reflexivity].
Qed.

End FlightEntryPoint.

(** *** Advice and saving tips *)

Lemma pushAll_app (recommendations rule : list string) :
  pushAll recommendations rule = (recommendations ++ rule)%list.
Proof.
  unfold pushAll. revert recommendations.
  induction rule as [|x rule IH]; intros recommendations; cbn [fold_left].
  - now rewrite app_nil_r.
  - rewrite IH. unfold push. now rewrite <- app_assoc.
Qed.

(** The pushes of [generateRecommendations], rule by rule, build the
    concatenation of the four blocks. *)
Lemma advice_blocks destination budgetType month duration travelers :
  generateRecommendations destination budgetType month duration travelers
  = (budgetBlock budgetType ++ durationBlock duration ++ seasonBlock month
       ++ groupBlock travelers)%list.
Proof.
  unfold generateRecommendations, budgetBlock, durationBlock, seasonBlock, groupBlock,
    peakMonth.
  rewrite !pushAll_app.
  destruct (String.eqb budgetType "budget"), (String.eqb budgetType "luxury"),
    (gt duration (Num 7)), (includes _ month), (gt travelers (Num 4));
    rewrite ?pushAll_app, ?app_nil_r, <- ?app_assoc; reflexivity.
Qed.

(** X17: the advice is the budget block, the duration block, the season
    block and the group block, in this order, each empty when its rule does
    not fire; the season block is never empty, so there are always between
    2 and 12 strings. *)
Theorem X17_advice_in_four_blocks destination budgetType month duration travelers :
  let recommendations :=
    generateRecommendations destination budgetType month duration travelers in
  recommendations
    = (budgetBlock budgetType ++ durationBlock duration ++ seasonBlock month
         ++ groupBlock travelers)%list
  /\ (2 <= length recommendations <= 12)%nat.
Proof.
  cbv zeta. rewrite advice_blocks. split; [reflexivity |].
  unfold budgetBlock, durationBlock, seasonBlock, groupBlock.
  destruct (String.eqb budgetType "budget"), (String.eqb budgetType "luxury"),
    (gt duration (Num 7)), (peakMonth month), (gt travelers (Num 4));
    cbn; lia.
Qed.

(** X18: no string occurs twice in the advice, whatever the trip. *)
Theorem X18_advice_without_repetition destination budgetType month duration travelers :
  NoDup (generateRecommendations destination budgetType month duration travelers).
Proof.
  rewrite advice_blocks.
  unfold budgetBlock, durationBlock, seasonBlock, groupBlock.
  destruct (String.eqb budgetType "budget"), (String.eqb budgetType "luxury"),
    (gt duration (Num 7)), (peakMonth month), (gt travelers (Num 4));
    apply (bool_decide_unpack _); vm_compute; exact I.
Qed.

Lemma tips_blocks budgetType duration seasonalMultiplier destination :
  generateSavingTips budgetType duration seasonalMultiplier destination
  = ((if gt seasonalMultiplier (Num 1.2) then shoulderSeasonTips else [])
       ++ (if String.eqb budgetType "luxury" then luxuryTips else [])
       ++ (if gt duration (Num 5) then longTripTips else [])
       ++ universalTips)%list.
Proof.
  unfold generateSavingTips.
  destruct (gt seasonalMultiplier (Num 1.2)), (String.eqb budgetType "luxury"),
    (gt duration (Num 5)); reflexivity.
Qed.

(** X19: the saving tips always end with the four universal tips; there
    are between 4 and 11 of them, and none occurs twice. *)
Theorem X19_tips_end_with_universal budgetType duration seasonalMultiplier destination :
  let tips := generateSavingTips budgetType duration seasonalMultiplier destination in
  universalTips `suffix_of` tips
  /\ (4 <= length tips <= 11)%nat
  /\ NoDup tips.
Proof.
  cbv zeta. rewrite tips_blocks.
  split; [| split].
  - rewrite !app_assoc. apply suffix_app_r. reflexivity.
  - destruct (gt seasonalMultiplier (Num 1.2)), (String.eqb budgetType "luxury"),
      (gt duration (Num 5)); cbn; lia.
  - destruct (gt seasonalMultiplier (Num 1.2)), (String.eqb budgetType "luxury"),
      (gt duration (Num 5)); apply (bool_decide_unpack _); vm_compute; exact I.
Qed.

Lemma In_existsb x (l : list string) : In x l <-> existsb (String.eqb x) l = true.
Proof.
  rewrite existsb_exists. split.
  - intros H. exists x. split; [exact H | apply String.eqb_refl].
  - intros (y & Hy & E). apply String.eqb_eq in E. now subst y.
Qed.

(** X20: fed with the seasonal multiplier of the month, the saving tips
    advise the shoulder season exactly when the recommendations for that
    month announce the peak season, that is for the months 5, 6, 7, 8
    and 11. *)
Theorem X20_shoulder_tip_iff_peak_advice
    destination budgetType month duration travelers :
  let tips :=
    generateSavingTips budgetType duration (getSeasonalMultiplier month) destination in
  let recommendations :=
    generateRecommendations destination budgetType month duration travelers in
  (In "💡 Travel in shoulder season to save 20-30%" tips <-> peakMonth month = true)
  /\ (In "📈 This is peak season - book early for better prices" recommendations
      <-> peakMonth month = true).
Proof.
  cbv zeta. rewrite tips_blocks, advice_blocks, peak_multiplier, !In_existsb.
  unfold budgetBlock, durationBlock, seasonBlock, groupBlock.
  destruct (peakMonth month), (String.eqb budgetType "budget"),
    (String.eqb budgetType "luxury"), (gt duration (Num 7)), (gt duration (Num 5)),
    (gt travelers (Num 4)); vm_compute; split; split; congruence.
Qed.

(** *** Exchange rates *)

(** X21: a base currency without a table of its own, such as JPY, gets the
    rates of USD, provided it does not name an inherited property. *)
Theorem X21_unknown_currency_gets_usd baseCurrency :
  ~ In baseCurrency baseCurrencies ->
  inherited baseCurrency = false ->
  getExchangeRates baseCurrency = Own usdRates
  /\ getExchangeRates baseCurrency = getExchangeRates "USD".
Proof.
  intros Hk Hi. rewrite (getExchangeRates_unknown_plain _ Hk Hi).
  split; [reflexivity |]. vm_compute. reflexivity.
Qed.

Lemma X21_unknown_currency_gets_usd_witness :
  ~ In "JPY" baseCurrencies
  /\ inherited "JPY" = false
  /\ getExchangeRates "JPY" = Own usdRates
  /\ getExchangeRates "JPY" = getExchangeRates "USD".
Proof.
  assert (H : ~ In "JPY" baseCurrencies).
  { cbn. intros [H | [H | [H | [H | []]]]]; discriminate H. }
  split; [exact H |]. split; [reflexivity |].
  exact (X21_unknown_currency_gets_usd "JPY" H eq_refl).
Defined.

Lemma mockRates_tables : map_Forall (fun (_ : string) t => ratesOK t = true) mockRates.
Proof. table_scan. Qed.

Lemma ratesOK_spec t :
  ratesOK t = true ->
  size t = 4%nat /\ map_Forall (fun (_ : string) r => 0 < r) t /\ t <> {[ "USD" := 1 ]}.
Proof.
  unfold ratesOK. rewrite andb_true_iff, Nat.eqb_eq, bool_decide_eq_true.
  intros [Hsize Hpos]. split; [exact Hsize |]. split.
  - intros k r Hk. specialize (Hpos k r Hk). cbn in Hpos.
    apply Qnot_le_lt. intros Hle. apply Qle_bool_iff in Hle. congruence.
  - intros ->. rewrite map_size_singleton in Hsize. discriminate.
Qed.

(** X22: [getExchangeRates] never yields [undefined] and never the
    [{ USD: 1 }] table of its [catch] block: the result is a table of four
    positive rates, or, for a base currency that names an inherited
    property, that property. *)
Theorem X22_rates_are_a_full_table baseCurrency :
  match getExchangeRates baseCurrency with
  | Own t =>
      size t = 4%nat /\ map_Forall (fun (_ : string) r => 0 < r) t
      /\ t <> {[ "USD" := 1 ]}
  | Inherited name => name = baseCurrency /\ inherited baseCurrency = true
  | Absent => False
  end.
Proof.
  unfold getExchangeRates, getExchangeRates_try.
  destruct (get_cases mockRates baseCurrency)
    as [(t & E & ->) | [(_ & Hi & ->) | (_ & _ & ->)]]; cbn [orElse].
  - apply ratesOK_spec. exact (map_Forall_lookup_1 _ _ _ _ mockRates_tables E).
  - easy.
  - rewrite mockRates_USD. apply ratesOK_spec. vm_compute. reflexivity.
Qed.

Lemma mockRates_round_trips :
  map_Forall (fun a ta => map_Forall (fun b x => roundTripOK a b x = true) ta) mockRates.
Proof. table_scan. Qed.

Lemma mockRates_bases : Forall (fun a => is_Some (mockRates !! a)) baseCurrencies.
Proof. table_scan. Qed.

Lemma mockRates_known a : In a baseCurrencies -> exists t, mockRates !! a = Some t.
Proof.
  intros Ha. apply list_elem_of_In in Ha.
  exact (proj1 (Forall_forall _ _) mockRates_bases a Ha).
Qed.

Lemma known_base_table a ta :
  In a baseCurrencies -> getExchangeRates a = Own ta -> mockRates !! a = Some ta.
Proof.
  intros Ha H. destruct (mockRates_known a Ha) as [t Ht].
  unfold getExchangeRates, getExchangeRates_try in H.
  rewrite (get_own _ _ _ Ht) in H. cbn [orElse] in H. congruence.
Qed.

(** X23: between two currencies that both have a table, the rate one way
    times the rate back is within 2.2 percent of 1 (between 0.978 and
    1.004). *)
Theorem X23_rates_round_trip a b ta tb x y :
  In a baseCurrencies -> In b baseCurrencies ->
  getExchangeRates a = Own ta -> getExchangeRates b = Own tb ->
  ta !! b = Some x -> tb !! a = Some y ->
  0.978 <= x * y /\ x * y <= 1.004.
Proof.
  intros Ha Hb Hta Htb Hx Hy.
  apply known_base_table in Hta; [| exact Ha].
  apply known_base_table in Htb; [| exact Hb].
  pose proof (map_Forall_lookup_1 _ _ _ _
                (map_Forall_lookup_1 _ _ _ _ mockRates_round_trips Hta) Hx) as H.
  unfold roundTripOK in H. rewrite Htb, Hy in H.
  reflect_checks H. exact H.
Qed.

Lemma mockRates_EUR : getExchangeRates "EUR" = Own eurRates.
Proof. vm_compute. reflexivity. Qed.

Lemma mockRates_INR : getExchangeRates "INR" = Own inrRates.
Proof. vm_compute. reflexivity. Qed.

Lemma eurRates_INR : eurRates !! "INR" = Some 97.89.
Proof. vm_compute. reflexivity. Qed.

Lemma inrRates_EUR : inrRates !! "EUR" = Some 0.010.
Proof. vm_compute. reflexivity. Qed.

Lemma X23_rates_round_trip_witness :
  In "EUR" baseCurrencies /\ In "INR" baseCurrencies
  /\ getExchangeRates "EUR" = Own eurRates /\ getExchangeRates "INR" = Own inrRates
  /\ eurRates !! "INR" = Some 97.89 /\ inrRates !! "EUR" = Some 0.010
  /\ 0.978 <= 97.89 * 0.010 /\ 97.89 * 0.010 <= 1.004.
Proof.
  assert (Ha : In "EUR" baseCurrencies) by (cbn; tauto).
  assert (Hb : In "INR" baseCurrencies) by (cbn; tauto).
  split; [exact Ha |]. split; [exact Hb |].
  split; [exact mockRates_EUR |]. split; [exact mockRates_INR |].
  split; [exact eurRates_INR |]. split; [exact inrRates_EUR |].
  exact (X23_rates_round_trip "EUR" "INR" eurRates inrRates 97.89 0.010 Ha Hb
           mockRates_EUR mockRates_INR eurRates_INR inrRates_EUR).
Defined.

(** *** Destinations and tiers of hotels *)

Lemma multipliers_unknown destination :
  ~ In destination ["Tokyo"; "Paris"; "London"; "Dubai"; "New York"; "Mumbai"; "Delhi";
                    "Bangkok"; "Singapore"] ->
  multipliers !! destination = None.
Proof.
  intros H. apply not_elem_of_list_to_map_1. cbn. intros Hin.
  apply H. apply list_elem_of_In. exact Hin.
Qed.

(** X24: the destination of a hotel is looked up as it is spelled: one that
    is not exactly a key of the table, such as a lower-case ["tokyo"], has
    the multiplier 1.0 (unless it names an inherited property). *)
Theorem X24_unlisted_destination_multiplier destination :
  ~ In destination ["Tokyo"; "Paris"; "London"; "Dubai"; "New York"; "Mumbai"; "Delhi";
                    "Bangkok"; "Singapore"] ->
  inherited destination = false ->
  getDestinationMultiplier destination = VNum (Num 1.0).
Proof.
  intros Hk Hi. unfold getDestinationMultiplier, get.
  now rewrite (multipliers_unknown _ Hk), Hi.
Qed.

Lemma X24_unlisted_destination_multiplier_witness :
  ~ In "tokyo" ["Tokyo"; "Paris"; "London"; "Dubai"; "New York"; "Mumbai"; "Delhi";
                "Bangkok"; "Singapore"]
  /\ inherited "tokyo" = false
  /\ getDestinationMultiplier "tokyo" = VNum (Num 1.0).
Proof.
  assert (H : ~ In "tokyo" ["Tokyo"; "Paris"; "London"; "Dubai"; "New York"; "Mumbai";
                            "Delhi"; "Bangkok"; "Singapore"]).
  { cbn. intros H. repeat (destruct H as [H | H]; [discriminate H |]). exact H. }
  split; [exact H |]. split; [reflexivity |].
  exact (X24_unlisted_destination_multiplier "tokyo" H eq_refl).
Defined.

(** X25: for the same destination and the same draws a luxury room costs
    more per night than a standard room, and a standard room more than a
    budget room. *)
Theorem X25_tiers_are_ordered destination checkIn checkOut guests s :
  unit_draws s ->
  inherited destination = false ->
  exists qb qs ql zb zs zl,
    run (mockHotelAPI destination checkIn checkOut guests "budget") s = Ok qb
    /\ run (mockHotelAPI destination checkIn checkOut guests "standard") s = Ok qs
    /\ run (mockHotelAPI destination checkIn checkOut guests "luxury") s = Ok ql
    /\ pricePerNight qb = Int zb /\ pricePerNight qs = Int zs
    /\ pricePerNight ql = Int zl
    /\ (zb < zs < zl)%Z.
Proof.
  intros Hs Hd. destruct (Hs 0%nat) as [H0 H1].
  destruct (multiplier_plain destination Hd) as (m & Hm & Hm1 & Hm2 & _).
  rewrite !mockHotelAPI_run.
  assert (Eb : exists h, hotelTypes !! "budget" = Some h /\ hotelBasePrice h = 60)
    by (eexists; split; vm_compute; reflexivity).
  assert (Es : exists h, hotelTypes !! "standard" = Some h /\ hotelBasePrice h = 120)
    by (eexists; split; vm_compute; reflexivity).
  assert (El : exists h, hotelTypes !! "luxury" = Some h /\ hotelBasePrice h = 280)
    by (eexists; split; vm_compute; reflexivity).
  destruct Eb as (hb & Eb & Pb), Es as (hs & Es & Ps), El as (hl & El & Pl).
  rewrite !(get_own _ _ _ Eb), !(get_own _ _ _ Es), !(get_own _ _ _ El).
  cbn [orElse]. do 6 eexists.
  do 3 (split; [reflexivity |]). cbn [pricePerNight]. unfold hotelPrice.
  rewrite Hm, Pb, Ps, Pl. cbn [hotelVariation toNumber mul add sub Math_round].
  do 3 (split; [reflexivity |]).
  split; apply roundQ_lt; nra.
Qed.

Lemma X25_tiers_are_ordered_witness :
  unit_draws halves
  /\ inherited "Bangkok" = false
  /\ exists qb qs ql zb zs zl,
       run (mockHotelAPI "Bangkok" "2024-07-01" "2024-07-09" (Int 2) "budget") halves
         = Ok qb
       /\ run (mockHotelAPI "Bangkok" "2024-07-01" "2024-07-09" (Int 2) "standard") halves
          = Ok qs
       /\ run (mockHotelAPI "Bangkok" "2024-07-01" "2024-07-09" (Int 2) "luxury") halves
          = Ok ql
       /\ pricePerNight qb = Int zb /\ pricePerNight qs = Int zs
       /\ pricePerNight ql = Int zl
       /\ (zb < zs < zl)%Z.
Proof.
  split; [exact halves_unit |]. split; [reflexivity |].
  exact (X25_tiers_are_ordered "Bangkok" "2024-07-01" "2024-07-09" (Int 2) halves
           halves_unit eq_refl).
Defined.
